(** * Line allocation for a two-column grid of text cards

    A shallow embedding of [calculateOptimalLineDistribution] and of the
    measurement and clamping code around it in [useGridWithLineClamp],
    with the properties of the allocation it returns.

    Modelling conventions.
    - Line counts ([naturalLines], [minLines], [maxNaturalLines] and the
      entries of an allocation) are integers: [Z].  They are integers below
      [2 ^ 53] at run time, which binary64 holds exactly.
    - Measured heights ([lineHeight], [cellPadding], the height budget) are
      JavaScript numbers.  The code is embedded twice, with one control flow
      and two readings of its arithmetic.
      In [Binary64] a height is a binary64 number, a primitive [float], and
      every sum, product, quotient and comparison is the one the code
      performs, rounded to nearest.  What depends on the value a height or
      a quotient is rounded to is stated there: the budget, the ideal
      shortcut, the minimum line count and the comparison of two budgets.
      At the top level a height is an exact rational: a [number] is
      [option Q], with [None] for [NaN], the value [0 / 0] gives on a row
      without cells.  What is stated there is about line counts and the
      control flow of the loop, or rests on heights growing with the line
      counts.
    - Arrays are lists, read with [!!] and updated with [<[ i := x ]>].
      A read that JavaScript answers with [undefined], and a property read
      of [undefined], end the run with an [error]; the theorems show that
      no run of the allocator ends that way. *)

From Stdlib Require Import ZArith QArith Qround Qminmax Lqa Lia Sorted.
From Stdlib Require Import PrimFloat SpecFloat FloatOps FloatAxioms.
From stdpp Require Import base list.

Local Open Scope Z_scope.

(** ** Numbers, as exact rationals *)

Definition number := option Q.

Definition NaN : number := None.

Definition nadd (a b : number) : number :=
  match a, b with
  | Some x, Some y => Some (x + y)%Q
  | _, _ => NaN
  end.

Definition nmul (lines : Z) (a : number) : number :=
  match a with
  | Some x => Some (inject_Z lines * x)%Q
  | None => NaN
  end.

(** [a <= b] and [a < b] on numbers; both are false on [NaN]. *)
Definition nleb (a : number) (b : Q) : bool :=
  match a with
  | Some x => Qle_bool x b
  | None => false
  end.

Definition nltb (a : number) (b : Q) : bool :=
  match a with
  | Some x => negb (Qle_bool b x)
  | None => false
  end.

Definition number_le (a : number) (b : Q) : Prop :=
  match a with
  | Some x => (x <= b)%Q
  | None => False
  end.

Definition number_lt (a : number) (b : Q) : Prop :=
  match a with
  | Some x => (x < b)%Q
  | None => False
  end.

Definition number_eq (a b : number) : Prop :=
  match a, b with
  | Some x, Some y => (x == y)%Q
  | None, None => True
  | _, _ => False
  end.

(** ** Errors *)

Inductive error :=
| TypeError   (* a property of [undefined] is read *)
| Undefined   (* an array is read out of range where a number is needed *)
| NonFinite   (* [NaN] or an infinity where the model has an integer *)
| OutOfFuel.  (* the loop model ran out of steps *)

Inductive result (A : Type) :=
| Ok (a : A)
| Err (e : error).

Arguments Ok {A} a.
Arguments Err {A} e.

Definition bind {A B : Type} (r : result A) (k : A -> result B) : result B :=
  match r with
  | Ok a => k a
  | Err e => Err e
  end.

Notation "'let*' x ':=' r 'in' k" := (bind r (fun x => k))
  (at level 10, x name, r at level 100, k at level 200).

Definition get {A : Type} (l : list A) (i : nat) (e : error) : result A :=
  match l !! i with
  | Some a => Ok a
  | None => Err e
  end.

(** ** Data model *)

Definition HTMLElement := nat.

Record CellConfig := {
  cc_element : HTMLElement;
  lineClamp : Z;
  maxHeight : Q
}.

Record CellTextData := {
  element : HTMLElement;
  content : HTMLElement;
  naturalLines : Z;
  lineHeight : Q;
  cellPadding : Q
}.

Record RowTextData := {
  cells : list CellTextData;
  maxNaturalLines : Z;
  minLines : Z
}.

(** [cells.reduce((s, c) => s + f(c), 0) / cells.length] *)
Definition average (f : CellTextData -> Q) (cells : list CellTextData) : number :=
  match cells with
  | [] => NaN
  | _ => Some (fold_left (fun s c => s + f c)%Q cells 0%Q
               / inject_Z (Z.of_nat (length cells)))%Q
  end.

(** ** getCurrentHeight *)

Section Allocator.

Variable rowTextData : list RowTextData.
Variable maxTotalHeight : Q.

Fixpoint reduceHeight (allocation : list Z) (index : nat) (sum : number)
  : result number :=
  match allocation with
  | [] => Ok sum
  | lines :: rest =>
      let* row := get rowTextData index TypeError in
      let rowAvgLineHeight := average lineHeight (cells row) in
      let rowAvgPadding := average cellPadding (cells row) in
      reduceHeight rest (S index)
        (nadd (nadd sum (nmul lines rowAvgLineHeight)) rowAvgPadding)
  end.

Definition getCurrentHeight (allocation : list Z) : result number :=
  reduceHeight allocation 0%nat (Some 0%Q).

(** ** The priority order *)

Record PriorityItem := {
  index : nat;
  remainingNeed : Z;
  priority : Z
}.

(** [Array.prototype.sort] is stable; with the comparator
    [(a, b) => b.priority - a.priority] an item goes before the first item
    whose priority is not larger than its own. *)
Fixpoint insertByPriority (a : PriorityItem) (l : list PriorityItem)
  : list PriorityItem :=
  match l with
  | [] => [a]
  | b :: l' =>
      if priority b - priority a <=? 0 then a :: b :: l'
      else b :: insertByPriority a l'
  end.

Definition sortByPriority (l : list PriorityItem) : list PriorityItem :=
  foldr insertByPriority [] l.

Definition rowPriorities : list PriorityItem :=
  sortByPriority
    (List.filter (fun item => 0 <? remainingNeed item)
       (imap (fun index row =>
                {| index := index;
                   remainingNeed := Z.max 0 (maxNaturalLines row - minLines row);
                   priority := maxNaturalLines row - minLines row |})
             rowTextData)).

(** ** The distribution loop *)

Definition maxIterations : nat := 200.

Record LoopState := {
  currentAllocation : list Z;
  currentHeight : number;
  priorityIndex : nat;
  iterations : nat
}.

(** How one run of the loop body ends: at its end or at [continue]
    ([Next]), or at [break]. *)
Inductive flow :=
| Next (st : LoopState)
| Break (st : LoopState).

Definition flowState (o : flow) : LoopState :=
  match o with
  | Next st => st
  | Break st => st
  end.

(** [rowPriorities.some(item => currentAllocation[item.index] <
    rowTextData[item.index].maxNaturalLines)] *)
Fixpoint hasNeedyRows (items : list PriorityItem) (allocation : list Z)
  : result bool :=
  match items with
  | [] => Ok false
  | item :: rest =>
      let* row := get rowTextData (index item) TypeError in
      let* lines := get allocation (index item) Undefined in
      if lines <? maxNaturalLines row then Ok true
      else hasNeedyRows rest allocation
  end.

Definition whileCondition (st : LoopState) : bool :=
  nltb (currentHeight st) maxTotalHeight
  && (priorityIndex st <? length rowPriorities)%nat
  && (iterations st <? maxIterations)%nat.

Definition loopBody (st : LoopState) : result flow :=
  let* currentPriorityItem := get rowPriorities (priorityIndex st) Undefined in
  let rowIndex := index currentPriorityItem in
  let* row := get rowTextData rowIndex TypeError in
  let* lines := get (currentAllocation st) rowIndex Undefined in
  if maxNaturalLines row <=? lines then
    Ok (Next {| currentAllocation := currentAllocation st;
                currentHeight := currentHeight st;
                priorityIndex := S (priorityIndex st);
                iterations := iterations st |})
  else
    let testAllocation := <[rowIndex := lines + 1]> (currentAllocation st) in
    let* testHeight := getCurrentHeight testAllocation in
    let st1 :=
      if nleb testHeight maxTotalHeight then
        {| currentAllocation := testAllocation;
           currentHeight := testHeight;
           priorityIndex :=
             if maxNaturalLines row <=? lines + 1
             then S (priorityIndex st) else priorityIndex st;
           iterations := iterations st |}
      else
        {| currentAllocation := currentAllocation st;
           currentHeight := currentHeight st;
           priorityIndex := S (priorityIndex st);
           iterations := iterations st |} in
    if (length rowPriorities <=? priorityIndex st1)%nat then
      let* needy := hasNeedyRows rowPriorities (currentAllocation st1) in
      if needy then
        Ok (Next {| currentAllocation := currentAllocation st1;
                    currentHeight := currentHeight st1;
                    priorityIndex := 0;
                    iterations := S (iterations st1) |})
      else
        Ok (Break {| currentAllocation := currentAllocation st1;
                     currentHeight := currentHeight st1;
                     priorityIndex := 0;
                     iterations := iterations st1 |})
    else
      Ok (Next {| currentAllocation := currentAllocation st1;
                  currentHeight := currentHeight st1;
                  priorityIndex := priorityIndex st1;
                  iterations := S (iterations st1) |}).

Fixpoint while (fuel : nat) (st : LoopState) : result LoopState :=
  match fuel with
  | O => Err OutOfFuel
  | S fuel' =>
      if whileCondition st then
        let* o := loopBody st in
        match o with
        | Next st' => while fuel' st'
        | Break st' => Ok st'
        end
      else Ok st
  end.

(** What one run of the body does to the allocation: nothing, or one more
    line for a row of the priority order that is below its natural maximum,
    and only if the new total height is within the budget. *)
Inductive grant (st st' : LoopState) : Prop :=
| grant_none :
    currentAllocation st' = currentAllocation st ->
    currentHeight st' = currentHeight st ->
    grant st st'
| grant_line (rowIndex : nat) (lines : Z) (row : RowTextData) :
    currentAllocation st !! rowIndex = Some lines ->
    rowTextData !! rowIndex = Some row ->
    lines < maxNaturalLines row ->
    currentAllocation st' = <[rowIndex := lines + 1]> (currentAllocation st) ->
    getCurrentHeight (currentAllocation st') = Ok (currentHeight st') ->
    nleb (currentHeight st') maxTotalHeight = true ->
    grant st st'.

(** The runs of the body that are left at most: [continue] moves the pointer
    and leaves [iterations] as it is, every other run counts one iteration. *)
Definition stepsLeft (st : LoopState) : nat :=
  ((maxIterations - iterations st) * (length rowPriorities + 1)
   + (length rowPriorities - priorityIndex st))%nat.

(** A run of the body either moves the pointer forward without counting an
    iteration, or counts one: this many steps are enough. *)
Definition loopFuel : nat :=
  ((maxIterations + 1) * (length rowPriorities + 1))%nat.

Definition idealAllocation : list Z :=
  map (fun row => Z.max (maxNaturalLines row) (minLines row)) rowTextData.

Definition minimumAllocation : list Z :=
  map minLines rowTextData.

(** Phase 2, from the all-minimum allocation to the state the loop ends in. *)
Definition distribute : result LoopState :=
  let currentAllocation := minimumAllocation in
  let* currentHeight := getCurrentHeight currentAllocation in
  while loopFuel
    {| currentAllocation := currentAllocation;
       currentHeight := currentHeight;
       priorityIndex := 0;
       iterations := 0 |}.

Definition calculateOptimalLineDistribution : result (list Z) :=
  let* idealHeight := getCurrentHeight idealAllocation in
  if nleb idealHeight maxTotalHeight then Ok idealAllocation
  else
    let* st := distribute in
    Ok (currentAllocation st).

End Allocator.

(** ** The height of an allocation, as the specification writes it *)

Fixpoint total (l : list Q) : Q :=
  match l with
  | [] => 0%Q
  | x :: l' => (x + total l')%Q
  end.

(** The arithmetic mean of [f] over the cells of a row; a row without cells
    has none. *)
Definition arithmeticMean (f : CellTextData -> Q) (cells : list CellTextData)
  : number :=
  match cells with
  | [] => NaN
  | _ => Some (total (map f cells) / inject_Z (Z.of_nat (length cells)))%Q
  end.

Definition avgLineUnitHeight (row : RowTextData) : number :=
  arithmeticMean lineHeight (cells row).

Definition avgFixedOverhead (row : RowTextData) : number :=
  arithmeticMean cellPadding (cells row).

(** [rowHeight(lines, i) = lines * avgLineUnitHeight(i) + avgFixedOverhead(i)] *)
Definition rowHeight (lines : Z) (row : RowTextData) : number :=
  nadd (nmul lines (avgLineUnitHeight row)) (avgFixedOverhead row).

(** The sum over the rows of [rowHeight(allocation[i], i)] *)
Fixpoint sumRowHeights (rows : list RowTextData) (allocation : list Z) : number :=
  match rows, allocation with
  | row :: rows', lines :: allocation' =>
      nadd (rowHeight lines row) (sumRowHeights rows' allocation')
  | _, _ => Some 0%Q
  end.

(** ** calculateGridWithLineClamp: from measured cells to clamps *)

(** [for (let i = 0; i < gridItems.length; i += 2)
      rows.push(gridItems.slice(i, i + 2))] *)
Fixpoint groupIntoRows {A : Type} (gridItems : list A) : list (list A) :=
  match gridItems with
  | [] => []
  | [a] => [[a]]
  | a :: b :: rest => [a; b] :: groupIntoRows rest
  end.

(** [Math.max(1, Math.ceil((160 - avgPadding) / avgLineHeight))]; a division
    by zero gives an infinity or [NaN], and [Math.max(1, -Infinity)] is 1. *)
Definition computeMinLines (avgPadding avgLineHeight : number) : result Z :=
  match avgPadding, avgLineHeight with
  | Some padding, Some height =>
      if Qeq_bool height 0 then
        if negb (Qle_bool 0 (160 - padding)) then Ok 1
        else Err NonFinite
      else Ok (Z.max 1 (Qceiling ((160 - padding) / height)))
  | _, _ => Err NonFinite
  end.

(** The aggregate of one row; [Math.max()] of no cells is [-Infinity]. *)
Definition aggregateRow (cellData : list CellTextData) : result RowTextData :=
  match cellData with
  | [] => Err NonFinite
  | c :: cs =>
      let maxNaturalLines := fold_left Z.max (map naturalLines cs) (naturalLines c) in
      let avgLineHeight := average lineHeight cellData in
      let avgPadding := average cellPadding cellData in
      let* minLines := computeMinLines avgPadding avgLineHeight in
      Ok {| cells := cellData;
            maxNaturalLines := maxNaturalLines;
            minLines := minLines |}
  end.

Fixpoint aggregateRows (rows : list (list CellTextData))
  : result (list RowTextData) :=
  match rows with
  | [] => Ok []
  | cellData :: rest =>
      let* row := aggregateRow cellData in
      let* rowTextData := aggregateRows rest in
      Ok (row :: rowTextData)
  end.

Record GridLayout := {
  configs : list CellConfig;
  actualRowHeights : list Q
}.

(** The body of [row.cells.forEach]: the state is [maxActualHeight] and
    [configs]. *)
Definition clampCell (allocatedLines : Z) (state : Q * list CellConfig)
    (cell : CellTextData) : Q * list CellConfig :=
  let clampLines := Z.min allocatedLines (naturalLines cell) in
  let textHeight := (inject_Z clampLines * lineHeight cell)%Q in
  let cellHeight := (textHeight + cellPadding cell)%Q in
  (Qmax (fst state) cellHeight,
   snd state ++ [ {| cc_element := content cell;
                     lineClamp := clampLines;
                     maxHeight := textHeight |} ]).

(** [rowTextData.forEach((row, rowIndex) => ...)]; [optimalRowLines] has an
    entry for every row, so the read at [rowIndex] is in range. *)
Fixpoint clampRows (rows : list RowTextData) (rowIndex : nat)
    (optimalRowLines : list Z) (layout : GridLayout) : result GridLayout :=
  match rows with
  | [] => Ok layout
  | row :: rest =>
      let* allocatedLines := get optimalRowLines rowIndex Undefined in
      let state := fold_left (clampCell allocatedLines) (cells row)
                             (0%Q, configs layout) in
      clampRows rest (S rowIndex) optimalRowLines
        {| configs := snd state;
           actualRowHeights := actualRowHeights layout ++ [fst state] |}
  end.

Definition applyAllocation (rowTextData : list RowTextData)
    (optimalRowLines : list Z) : result GridLayout :=
  clampRows rowTextData 0%nat optimalRowLines
    {| configs := []; actualRowHeights := [] |}.

(** The measurement pass.  What the DOM reports for a grid item (its
    elements, line height, padding and the natural line count
    [Math.ceil(content.scrollHeight / lineHeight)]) is the input, one
    [CellTextData] for every grid item in document order. *)
Definition calculateGridWithLineClamp (gridItems : list CellTextData)
  : result GridLayout :=
  let rows := groupIntoRows gridItems in
  let* rowTextData := aggregateRows rows in
  let* optimalRowLines := calculateOptimalLineDistribution rowTextData 740 in
  applyAllocation rowTextData optimalRowLines.

(** Every cell with the lines given to its row, in document order. *)
Definition cellsWithAllocation (rows : list RowTextData) (allocation : list Z)
  : list (Z * CellTextData) :=
  concat (zip_with (fun row lines => map (pair lines) (cells row)) rows allocation).

(** The clamp of a cell, as the specification writes it:
    [clampLineCount = min(allocation[row], cell.naturalLineCount)] and
    [clampPixelHeight = clampLineCount * cell.lineUnitHeight]. *)
Definition clampOf (allocated : Z * CellTextData) : CellConfig :=
  let clampLineCount := Z.min (fst allocated) (naturalLines (snd allocated)) in
  {| cc_element := content (snd allocated);
     lineClamp := clampLineCount;
     maxHeight := (inject_Z clampLineCount * lineHeight (snd allocated))%Q |}.

(** ** Well-formed measurements

    The measurement pass gives every cell a positive line height and a
    padding that is not negative, and every row a minimum of one line at
    least. *)




(** [a > b] on numbers, false on [NaN] *)
Definition number_gt (a : number) (b : Q) : Prop :=
  match a with
  | Some x => (b < x)%Q
  | None => False
  end.

(** ** Example grids *)

Definition cell (n : Z) (lh pad : Q) : CellTextData :=
  {| element := 0%nat; content := 0%nat; naturalLines := n; lineHeight := lh; cellPadding := pad |}.

Definition exA : list RowTextData :=
  [ {| cells := [cell 3 20 16; cell 5 20 16]; maxNaturalLines := 5; minLines := 8 |} ].

(** Two rows of two cells: lines of 100 units in the first row, of 20 units
    in the second; the minimums are the ones the measurement pass computes. *)
Definition gridB : list CellTextData :=
  [cell 10 100 0; cell 10 100 0; cell 15 20 0; cell 15 20 0].

Definition exB : list RowTextData :=
  [ {| cells := [cell 10 100 0; cell 10 100 0]; maxNaturalLines := 10; minLines := 2 |};
    {| cells := [cell 15 20 0; cell 15 20 0]; maxNaturalLines := 15; minLines := 8 |} ].

(** As [gridB], with a second row that needs one line more than its minimum. *)
Definition gridC : list CellTextData :=
  [cell 10 100 0; cell 10 100 0; cell 9 20 0; cell 9 20 0].

Definition exC : list RowTextData :=
  [ {| cells := [cell 10 100 0; cell 10 100 0]; maxNaturalLines := 10; minLines := 2 |};
    {| cells := [cell 9 20 0; cell 9 20 0]; maxNaturalLines := 9; minLines := 8 |} ].

Definition scenarioA : list CellTextData := [cell 3 20 16; cell 5 20 16].

Definition scenarioC : list CellTextData := [cell 1 20 10].

(** ** Notions for the properties of the loop *)


(** The states the loop goes through, from the all-minimum allocation. *)
Inductive reaches (rows : list RowTextData) (budget : Q) : LoopState -> Prop :=
| reaches_start (h : number) :
    getCurrentHeight rows (minimumAllocation rows) = Ok h ->
    reaches rows budget
      {| currentAllocation := minimumAllocation rows;
         currentHeight := h;
         priorityIndex := 0;
         iterations := 0 |}
| reaches_next (st st' : LoopState) :
    reaches rows budget st ->
    whileCondition rows budget st = true ->
    loopBody rows budget st = Ok (Next st') ->
    reaches rows budget st'.

(** What holds of every state the loop goes through: the allocation has an
    entry for every row, between the minimum of the row and the larger of its
    minimum and natural maximum, and [currentHeight] is its height. *)
Definition wellFormedState (rows : list RowTextData) (st : LoopState) : Prop :=
  getCurrentHeight rows (currentAllocation st) = Ok (currentHeight st)
  /\ Forall2 (fun row lines =>
                minLines row <= lines
                <= Z.max (maxNaturalLines row) (minLines row))
             rows (currentAllocation st).

(** The order of the priority list: a larger remaining need first, and the
    earlier row first among rows of one need. *)
Definition servedBefore (a b : PriorityItem) : Prop :=
  priority b < priority a
  \/ (priority a = priority b /\ (index a < index b)%nat).

(** * The allocator on binary64 numbers

    The same code with its heights as the numbers they are at run time:
    every sum, product and quotient is rounded to the nearest binary64
    number, and [<=] and [<] compare the rounded results. *)

Module Binary64.

(** The binary64 number nearest to an integer; below [2 ^ 53] it is the
    integer itself. *)
Definition ofZ (z : Z) : float :=
  SF2Prim (binary_normalize prec emax z 0 false).

(** The number a decimal literal [n / d] is read as, for instance [16.8] as
    [decimal 168 10]: the binary64 number nearest to the quotient. *)
Definition decimal (n d : Z) : float := (ofZ n / ofZ d)%float.

(** The rational a finite binary64 number stands for; [NaN] and the
    infinities stand for none. *)
Definition exact (x : float) : option Q :=
  match Prim2SF x with
  | S754_zero _ => Some 0%Q
  | S754_finite s m e =>
      let magnitude :=
        if 0 <=? e then inject_Z (Z.pos m * 2 ^ e)
        else (Z.pos m # Z.to_pos (2 ^ (- e))) in
      Some (if s then - magnitude else magnitude)%Q
  | _ => None
  end.

Record CellTextData := {
  element : HTMLElement;
  content : HTMLElement;
  naturalLines : Z;
  lineHeight : float;
  cellPadding : float
}.

Record RowTextData := {
  cells : list CellTextData;
  maxNaturalLines : Z;
  minLines : Z
}.

(** [cells.reduce((s, c) => s + f(c), 0) / cells.length]; no cells give
    [0 / 0], which is [NaN]. *)
Definition average (f : CellTextData -> float) (cells : list CellTextData)
  : float :=
  (fold_left (fun s c => s + f c) cells 0 / ofZ (Z.of_nat (length cells)))%float.

Section Allocator.

Variable rowTextData : list RowTextData.
Variable maxTotalHeight : float.

(** [sum + (lines * rowAvgLineHeight) + rowAvgPadding], from the left. *)
Fixpoint reduceHeight (allocation : list Z) (index : nat) (sum : float)
  : result float :=
  match allocation with
  | [] => Ok sum
  | lines :: rest =>
      let* row := get rowTextData index TypeError in
      let rowAvgLineHeight := average lineHeight (cells row) in
      let rowAvgPadding := average cellPadding (cells row) in
      reduceHeight rest (S index)
        ((sum + (ofZ lines * rowAvgLineHeight)) + rowAvgPadding)%float
  end.

Definition getCurrentHeight (allocation : list Z) : result float :=
  reduceHeight allocation 0%nat 0%float.

Definition rowPriorities : list PriorityItem :=
  sortByPriority
    (List.filter (fun item => 0 <? remainingNeed item)
       (imap (fun index row =>
                {| index := index;
                   remainingNeed := Z.max 0 (maxNaturalLines row - minLines row);
                   priority := maxNaturalLines row - minLines row |})
             rowTextData)).

Record LoopState := {
  currentAllocation : list Z;
  currentHeight : float;
  priorityIndex : nat;
  iterations : nat
}.

Inductive flow :=
| Next (st : LoopState)
| Break (st : LoopState).

Definition flowState (o : flow) : LoopState :=
  match o with
  | Next st => st
  | Break st => st
  end.

Fixpoint hasNeedyRows (items : list PriorityItem) (allocation : list Z)
  : result bool :=
  match items with
  | [] => Ok false
  | item :: rest =>
      let* row := get rowTextData (index item) TypeError in
      let* lines := get allocation (index item) Undefined in
      if lines <? maxNaturalLines row then Ok true
      else hasNeedyRows rest allocation
  end.

Definition whileCondition (st : LoopState) : bool :=
  (currentHeight st <? maxTotalHeight)%float
  && (priorityIndex st <? length rowPriorities)%nat
  && (iterations st <? maxIterations)%nat.

Definition loopBody (st : LoopState) : result flow :=
  let* currentPriorityItem := get rowPriorities (priorityIndex st) Undefined in
  let rowIndex := index currentPriorityItem in
  let* row := get rowTextData rowIndex TypeError in
  let* lines := get (currentAllocation st) rowIndex Undefined in
  if maxNaturalLines row <=? lines then
    Ok (Next {| currentAllocation := currentAllocation st;
                currentHeight := currentHeight st;
                priorityIndex := S (priorityIndex st);
                iterations := iterations st |})
  else
    let testAllocation := <[rowIndex := lines + 1]> (currentAllocation st) in
    let* testHeight := getCurrentHeight testAllocation in
    let st1 :=
      if (testHeight <=? maxTotalHeight)%float then
        {| currentAllocation := testAllocation;
           currentHeight := testHeight;
           priorityIndex :=
             if maxNaturalLines row <=? lines + 1
             then S (priorityIndex st) else priorityIndex st;
           iterations := iterations st |}
      else
        {| currentAllocation := currentAllocation st;
           currentHeight := currentHeight st;
           priorityIndex := S (priorityIndex st);
           iterations := iterations st |} in
    if (length rowPriorities <=? priorityIndex st1)%nat then
      let* needy := hasNeedyRows rowPriorities (currentAllocation st1) in
      if needy then
        Ok (Next {| currentAllocation := currentAllocation st1;
                    currentHeight := currentHeight st1;
                    priorityIndex := 0;
                    iterations := S (iterations st1) |})
      else
        Ok (Break {| currentAllocation := currentAllocation st1;
                     currentHeight := currentHeight st1;
                     priorityIndex := 0;
                     iterations := iterations st1 |})
    else
      Ok (Next {| currentAllocation := currentAllocation st1;
                  currentHeight := currentHeight st1;
                  priorityIndex := priorityIndex st1;
                  iterations := S (iterations st1) |}).

Fixpoint while (fuel : nat) (st : LoopState) : result LoopState :=
  match fuel with
  | O => Err OutOfFuel
  | S fuel' =>
      if whileCondition st then
        let* o := loopBody st in
        match o with
        | Next st' => while fuel' st'
        | Break st' => Ok st'
        end
      else Ok st
  end.

(** What one run of the body does to the allocation: nothing, or one more
    line for a row below its natural maximum, and only if the height computed
    for the new allocation is within the budget. *)
Inductive grant (st st' : LoopState) : Prop :=
| grant_none :
    currentAllocation st' = currentAllocation st ->
    currentHeight st' = currentHeight st ->
    grant st st'
| grant_line (rowIndex : nat) (lines : Z) (row : RowTextData) :
    currentAllocation st !! rowIndex = Some lines ->
    rowTextData !! rowIndex = Some row ->
    lines < maxNaturalLines row ->
    currentAllocation st' = <[rowIndex := lines + 1]> (currentAllocation st) ->
    getCurrentHeight (currentAllocation st') = Ok (currentHeight st') ->
    (currentHeight st' <=? maxTotalHeight)%float = true ->
    grant st st'.

Definition stepsLeft (st : LoopState) : nat :=
  ((maxIterations - iterations st) * (length rowPriorities + 1)
   + (length rowPriorities - priorityIndex st))%nat.

Definition loopFuel : nat :=
  ((maxIterations + 1) * (length rowPriorities + 1))%nat.

Definition idealAllocation : list Z :=
  map (fun row => Z.max (maxNaturalLines row) (minLines row)) rowTextData.

Definition minimumAllocation : list Z :=
  map minLines rowTextData.

Definition distribute : result LoopState :=
  let currentAllocation := minimumAllocation in
  let* currentHeight := getCurrentHeight currentAllocation in
  while loopFuel
    {| currentAllocation := currentAllocation;
       currentHeight := currentHeight;
       priorityIndex := 0;
       iterations := 0 |}.

Definition calculateOptimalLineDistribution : result (list Z) :=
  let* idealHeight := getCurrentHeight idealAllocation in
  if (idealHeight <=? maxTotalHeight)%float then Ok idealAllocation
  else
    let* st := distribute in
    Ok (currentAllocation st).

(** The height the code computes for an allocation is within, or below,
    a budget. *)
Definition heightWithin (allocation : list Z) : Prop :=
  exists h, getCurrentHeight allocation = Ok h
            /\ (h <=? maxTotalHeight)%float = true.

Definition heightBelow (allocation : list Z) : Prop :=
  exists h, getCurrentHeight allocation = Ok h
            /\ (h <? maxTotalHeight)%float = true.

(** An allocation between the minimums and the ideal allocation. *)
Definition withinBounds (allocation : list Z) : Prop :=
  Forall2 (fun row lines =>
             minLines row <= lines
             <= Z.max (maxNaturalLines row) (minLines row))
          rowTextData allocation.

(** One more line makes the same computed height whichever row gets it,
    among the rows that are below their natural maximum.  Rows of one line
    height have this property when the heights are computed without
    rounding, as with heights in whole pixels. *)
Definition sameHeightForAnyRow : Prop :=
  forall (allocation : list Z) (i j : nat) (li lj : Z) (rowi rowj : RowTextData),
    withinBounds allocation ->
    allocation !! i = Some li -> rowTextData !! i = Some rowi ->
    li < maxNaturalLines rowi ->
    allocation !! j = Some lj -> rowTextData !! j = Some rowj ->
    lj < maxNaturalLines rowj ->
    getCurrentHeight (<[i := li + 1]> allocation)
    = getCurrentHeight (<[j := lj + 1]> allocation).

End Allocator.

(** The quotient of line 88, [(160 - avgPadding) / avgLineHeight]. *)
Definition minLinesQuotient (cellData : list CellTextData) : float :=
  ((160 - average cellPadding cellData) / average lineHeight cellData)%float.

(** [Math.max(1, Math.ceil(quotient))]: the ceiling of a finite quotient;
    [Math.max(1, -Infinity)] is 1, and [NaN] and [Infinity] stay what they
    are, which is no line count. *)
Definition computeMinLines (quotient : float) : result Z :=
  match exact quotient with
  | Some q => Ok (Z.max 1 (Qceiling q))
  | None => if (quotient <? 0)%float then Ok 1 else Err NonFinite
  end.

Definition aggregateRow (cellData : list CellTextData) : result RowTextData :=
  match cellData with
  | [] => Err NonFinite
  | c :: cs =>
      let maxNaturalLines := fold_left Z.max (map naturalLines cs) (naturalLines c) in
      let* minLines := computeMinLines (minLinesQuotient cellData) in
      Ok {| cells := cellData;
            maxNaturalLines := maxNaturalLines;
            minLines := minLines |}
  end.

Fixpoint aggregateRows (rows : list (list CellTextData))
  : result (list RowTextData) :=
  match rows with
  | [] => Ok []
  | cellData :: rest =>
      let* row := aggregateRow cellData in
      let* rowTextData := aggregateRows rest in
      Ok (row :: rowTextData)
  end.

(** [rowHeight(lines, i)] and its sum over the rows, every operation
    rounded. *)
Definition rowHeight (lines : Z) (row : RowTextData) : float :=
  (ofZ lines * average lineHeight (cells row)
   + average cellPadding (cells row))%float.

Definition sumRowHeights (rows : list RowTextData) (allocation : list Z) : float :=
  fold_left (fun sum '(row, lines) => (sum + rowHeight lines row)%float)
            (zip rows allocation) 0%float.

Definition cell (n : Z) (lh pad : float) : CellTextData :=
  {| element := 0%nat; content := 0%nat; naturalLines := n;
     lineHeight := lh; cellPadding := pad |}.

End Binary64.

(** ** Binary64 measurements as exact rationals *)

Definition exactCell (c : Binary64.CellTextData) : option CellTextData :=
  match Binary64.exact (Binary64.lineHeight c),
        Binary64.exact (Binary64.cellPadding c) with
  | Some unitHeight, Some padding =>
      Some {| element := Binary64.element c;
              content := Binary64.content c;
              naturalLines := Binary64.naturalLines c;
              lineHeight := unitHeight;
              cellPadding := padding |}
  | _, _ => None
  end.

Definition exactRow (row : Binary64.RowTextData) : option RowTextData :=
  match mapM exactCell (Binary64.cells row) with
  | Some cells => Some {| cells := cells;
                          maxNaturalLines := Binary64.maxNaturalLines row;
                          minLines := Binary64.minLines row |}
  | None => None
  end.

Definition exactRows (rows : list Binary64.RowTextData)
  : option (list RowTextData) :=
  mapM exactRow rows.

(** The minimum line count as the specification writes it, in exact
    arithmetic. *)
Definition minLineCount (cellData : list CellTextData) : option Z :=
  match arithmeticMean cellPadding cellData, arithmeticMean lineHeight cellData with
  | Some overhead, Some unitHeight =>
      Some (Z.max 1 (Qceiling ((160 - overhead) / unitHeight)))
  | _, _ => None
  end.

(** ** Example grids on binary64 numbers *)

(** [gridB], with the same whole numbers. *)
Definition gridB64 : list Binary64.CellTextData :=
  [Binary64.cell 10 100 0; Binary64.cell 10 100 0;
   Binary64.cell 15 20 0; Binary64.cell 15 20 0].

Definition exB64 : list Binary64.RowTextData :=
  [ {| Binary64.cells := [Binary64.cell 10 100 0; Binary64.cell 10 100 0];
       Binary64.maxNaturalLines := 10; Binary64.minLines := 2 |};
    {| Binary64.cells := [Binary64.cell 15 20 0; Binary64.cell 15 20 0];
       Binary64.maxNaturalLines := 15; Binary64.minLines := 8 |} ].

(** Three rows of two cells: line heights 16.8, 21.6 and 22.4 with paddings
    9.6, 14.4 and 4.8. *)
Definition gridD : list Binary64.CellTextData :=
  let d := Binary64.decimal in
  [Binary64.cell 30 (d 168 10) (d 96 10); Binary64.cell 30 (d 168 10) (d 96 10);
   Binary64.cell 10 (d 216 10) (d 144 10); Binary64.cell 10 (d 216 10) (d 144 10);
   Binary64.cell 9 (d 224 10) (d 48 10); Binary64.cell 9 (d 224 10) (d 48 10)].

Definition exD : list Binary64.RowTextData :=
  let d := Binary64.decimal in
  [ {| Binary64.cells := [Binary64.cell 30 (d 168 10) (d 96 10);
                          Binary64.cell 30 (d 168 10) (d 96 10)];
       Binary64.maxNaturalLines := 30; Binary64.minLines := 9 |};
    {| Binary64.cells := [Binary64.cell 10 (d 216 10) (d 144 10);
                          Binary64.cell 10 (d 216 10) (d 144 10)];
       Binary64.maxNaturalLines := 10; Binary64.minLines := 7 |};
    {| Binary64.cells := [Binary64.cell 9 (d 224 10) (d 48 10);
                          Binary64.cell 9 (d 224 10) (d 48 10)];
       Binary64.maxNaturalLines := 9; Binary64.minLines := 7 |} ].

(** Three rows of two cells: line heights 11.2, 26 and 26.2 with paddings
    36.8, 2 and 11.2.  In decimals the ideal allocation, 22, 9 and 8 lines,
    is [283.2 + 236 + 220.8 = 740] high. *)
Definition gridE : list Binary64.CellTextData :=
  let d := Binary64.decimal in
  [Binary64.cell 22 (d 112 10) (d 368 10); Binary64.cell 22 (d 112 10) (d 368 10);
   Binary64.cell 9 26 2; Binary64.cell 9 26 2;
   Binary64.cell 8 (d 262 10) (d 112 10); Binary64.cell 8 (d 262 10) (d 112 10)].

Definition exE : list Binary64.RowTextData :=
  let d := Binary64.decimal in
  [ {| Binary64.cells := [Binary64.cell 22 (d 112 10) (d 368 10);
                          Binary64.cell 22 (d 112 10) (d 368 10)];
       Binary64.maxNaturalLines := 22; Binary64.minLines := 12 |};
    {| Binary64.cells := [Binary64.cell 9 26 2; Binary64.cell 9 26 2];
       Binary64.maxNaturalLines := 9; Binary64.minLines := 7 |};
    {| Binary64.cells := [Binary64.cell 8 (d 262 10) (d 112 10);
                          Binary64.cell 8 (d 262 10) (d 112 10)];
       Binary64.maxNaturalLines := 8; Binary64.minLines := 6 |} ].

(** A row of two cells with line heights 14.4 and 20 and a padding of 5.2:
    in decimals [(160 - 5.2) / 17.2 = 9]. *)
Definition cellsF : list Binary64.CellTextData :=
  let d := Binary64.decimal in
  [Binary64.cell 5 (d 144 10) (d 52 10); Binary64.cell 5 20 (d 52 10)].

Definition cellsFdecimal : list CellTextData :=
  [cell 5 (144 # 10) (52 # 10); cell 5 20 (52 # 10)].

(** Two rows of two cells with one line height, 23.8, and paddings 26 and
    25.6.  In decimals 12 and 6 lines are 480 high, and so are 11 and 7. *)
Definition gridG : list Binary64.CellTextData :=
  let d := Binary64.decimal in
  [Binary64.cell 13 (d 238 10) 26; Binary64.cell 13 (d 238 10) 26;
   Binary64.cell 10 (d 238 10) (d 256 10); Binary64.cell 10 (d 238 10) (d 256 10)].

Definition exG : list Binary64.RowTextData :=
  let d := Binary64.decimal in
  [ {| Binary64.cells := [Binary64.cell 13 (d 238 10) 26;
                          Binary64.cell 13 (d 238 10) 26];
       Binary64.maxNaturalLines := 13; Binary64.minLines := 6 |};
    {| Binary64.cells := [Binary64.cell 10 (d 238 10) (d 256 10);
                          Binary64.cell 10 (d 238 10) (d 256 10)];
       Binary64.maxNaturalLines := 10; Binary64.minLines := 6 |} ].

(** Two rows of two cells with one line height in whole pixels, 20, and
    paddings 0 and 10. *)
Definition gridH : list Binary64.CellTextData :=
  [Binary64.cell 9 20 0; Binary64.cell 9 20 0;
   Binary64.cell 10 20 10; Binary64.cell 10 20 10].

Definition exH : list Binary64.RowTextData :=
  [ {| Binary64.cells := [Binary64.cell 9 20 0; Binary64.cell 9 20 0];
       Binary64.maxNaturalLines := 9; Binary64.minLines := 8 |};
    {| Binary64.cells := [Binary64.cell 10 20 10; Binary64.cell 10 20 10];
       Binary64.maxNaturalLines := 10; Binary64.minLines := 8 |} ].

(** Two rows of two cells with the line height 23.8; the second row has
    fewer natural lines than its minimum, so only the first can grow. *)
Definition exJ : list Binary64.RowTextData :=
  let d := Binary64.decimal in
  [ {| Binary64.cells := [Binary64.cell 13 (d 238 10) 26;
                          Binary64.cell 13 (d 238 10) 26];
       Binary64.maxNaturalLines := 13; Binary64.minLines := 6 |};
    {| Binary64.cells := [Binary64.cell 5 (d 238 10) (d 256 10);
                          Binary64.cell 5 (d 238 10) (d 256 10)];
       Binary64.maxNaturalLines := 5; Binary64.minLines := 6 |} ].

(** Case analysis on the comparisons of exponents and mantissas. *)
Ltac order_cases :=
  change (Pos.compare_cont Eq) with Pos.compare in *;
  repeat match goal with
  | H : context [Z.compare ?a ?b] |- _ => destruct (Z.compare_spec a b); simpl in H
  | |- context [Z.compare ?a ?b] => destruct (Z.compare_spec a b); simpl
  | H : context [Pos.compare ?a ?b] |- _ => destruct (Pos.compare_spec a b); simpl in H
  | |- context [Pos.compare ?a ?b] => destruct (Pos.compare_spec a b); simpl
  end; subst; try congruence; try lia.

(** ** Lemmas on numbers *)

Lemma nleb_le (a : number) (b : Q) : nleb a b = true <-> number_le a b.
Proof.
  destruct a as [x|]; simpl; [apply Qle_bool_iff | split; [discriminate | tauto]].
Qed.

Lemma nltb_lt (a : number) (b : Q) : nltb a b = true <-> number_lt a b.
Proof.
  destruct a as [x|]; simpl; [| split; [discriminate | tauto]].
  rewrite negb_true_iff. split.
  - intros H. apply Qnot_le_lt. intros Hle.
    apply Qle_bool_iff in Hle. congruence.
  - intros H. destruct (Qle_bool b x) eqn:E; [| reflexivity].
    apply Qle_bool_iff in E. exfalso. exact (Qlt_not_le _ _ H E).
Qed.

Lemma number_eq_refl (a : number) : number_eq a a.
Proof. destruct a; simpl; [reflexivity | exact I]. Qed.

Lemma number_eq_sym (a b : number) : number_eq a b -> number_eq b a.
Proof. destruct a, b; simpl; try tauto. intros H. symmetry. exact H. Qed.

Lemma number_eq_trans (a b c : number) :
  number_eq a b -> number_eq b c -> number_eq a c.
Proof.
  destruct a, b, c; simpl; try tauto. intros H1 H2. rewrite H1. exact H2.
Qed.

Lemma nadd_eq (a a' b b' : number) :
  number_eq a a' -> number_eq b b' -> number_eq (nadd a b) (nadd a' b').
Proof.
  destruct a, a', b, b'; simpl; try tauto. intros H1 H2. rewrite H1, H2. reflexivity.
Qed.

Lemma nmul_eq (lines : Z) (a a' : number) :
  number_eq a a' -> number_eq (nmul lines a) (nmul lines a').
Proof.
  destruct a, a'; simpl; try tauto. intros H. rewrite H. reflexivity.
Qed.

Lemma nadd_assoc (a b c : number) :
  number_eq (nadd (nadd a b) c) (nadd a (nadd b c)).
Proof. destruct a, b, c; simpl; try exact I. ring. Qed.

Lemma nadd_zero_r (a : number) : number_eq (nadd a (Some 0%Q)) a.
Proof. destruct a; simpl; [ring | exact I]. Qed.

Lemma number_le_eq (a a' : number) (b : Q) :
  number_eq a a' -> number_le a b -> number_le a' b.
Proof.
  destruct a, a'; simpl; try tauto. intros H1 H2. rewrite <- H1. exact H2.
Qed.

Lemma number_lt_eq (a a' : number) (b : Q) :
  number_eq a a' -> number_lt a b -> number_lt a' b.
Proof.
  destruct a, a'; simpl; try tauto. intros H1 H2. rewrite <- H1. exact H2.
Qed.

(** ** The code's mean is the arithmetic mean *)

Lemma fold_left_total (f : CellTextData -> Q) (cells : list CellTextData) (a : Q) :
  (fold_left (fun s c => s + f c) cells a == a + total (map f cells))%Q.
Proof.
  revert a. induction cells as [|c cells IH]; intros a; simpl.
  - ring.
  - rewrite IH. ring.
Qed.

Lemma average_mean (f : CellTextData -> Q) (cells : list CellTextData) :
  number_eq (average f cells) (arithmeticMean f cells).
Proof.
  destruct cells as [|c cells]; [exact I |].
  unfold average, arithmeticMean, number_eq.
  rewrite fold_left_total. rewrite Qplus_0_l. reflexivity.
Qed.

(** ** Reading arrays *)

Lemma get_Some {A : Type} (l : list A) (i : nat) (e : error) (a : A) :
  l !! i = Some a -> get l i e = Ok a.
Proof. intros H. unfold get. rewrite H. reflexivity. Qed.

Lemma get_Ok {A : Type} (l : list A) (i : nat) (e : error) (a : A) :
  get l i e = Ok a -> l !! i = Some a.
Proof. unfold get. destruct (l !! i); intros H; [congruence | discriminate]. Qed.

Lemma get_lt {A : Type} (l : list A) (i : nat) (e : error) :
  (i < length l)%nat -> exists a, l !! i = Some a /\ get l i e = Ok a.
Proof.
  intros H. destruct (lookup_lt_is_Some_2 l i H) as [a Ha].
  exists a. split; [exact Ha | apply get_Some; exact Ha].
Qed.

(** ** getCurrentHeight computes the sum of the row heights *)

Section HeightLemmas.

Variable rows : list RowTextData.

Lemma reduceHeight_ok (allocation : list Z) :
  forall (index : nat) (sum : number),
    (index + length allocation <= length rows)%nat ->
    exists h, reduceHeight rows allocation index sum = Ok h.
Proof.
  induction allocation as [|lines rest IH]; intros index sum Hlen; simpl in *.
  - eexists; reflexivity.
  - destruct (get_lt rows index TypeError) as (row & _ & Hget); [lia |].
    rewrite Hget. simpl. apply IH. lia.
Qed.

Lemma getCurrentHeight_ok (allocation : list Z) :
  length allocation = length rows ->
  exists h, getCurrentHeight rows allocation = Ok h.
Proof. intros H. apply reduceHeight_ok. lia. Qed.

Lemma rowHeight_average (lines : Z) (row : RowTextData) :
  number_eq
    (nadd (nmul lines (average lineHeight (cells row)))
          (average cellPadding (cells row)))
    (rowHeight lines row).
Proof.
  unfold rowHeight. apply nadd_eq; [apply nmul_eq |]; apply average_mean.
Qed.

Lemma reduceHeight_sum (allocation : list Z) :
  forall (index : nat) (sum h : number),
    reduceHeight rows allocation index sum = Ok h ->
    number_eq h (nadd sum (sumRowHeights (drop index rows) allocation)).
Proof.
  induction allocation as [|lines rest IH]; intros index sum h Hrun; simpl in Hrun.
  - injection Hrun as <-. apply number_eq_sym.
    destruct (drop index rows); apply nadd_zero_r.
  - destruct (get rows index TypeError) as [row|] eqn:Hget; [| discriminate].
    apply get_Ok in Hget. simpl in Hrun. apply IH in Hrun.
    rewrite (drop_S _ _ _ Hget). simpl.
    eapply number_eq_trans; [exact Hrun |].
    eapply number_eq_trans; [| apply nadd_assoc].
    apply nadd_eq; [| apply number_eq_refl].
    eapply number_eq_trans; [apply nadd_assoc |].
    apply nadd_eq; [apply number_eq_refl | apply rowHeight_average].
Qed.

Lemma getCurrentHeight_sum (allocation : list Z) (h : number) :
  getCurrentHeight rows allocation = Ok h ->
  number_eq h (sumRowHeights rows allocation).
Proof.
  intros Hrun. apply reduceHeight_sum in Hrun. rewrite drop_0 in Hrun.
  eapply number_eq_trans; [exact Hrun |].
  destruct (sumRowHeights rows allocation); simpl; [ring | exact I].
Qed.

End HeightLemmas.

(** ** The priority order holds rows that can still grow *)

Lemma insertByPriority_perm (a : PriorityItem) (l : list PriorityItem) :
  insertByPriority a l ≡ₚ a :: l.
Proof.
  induction l as [|b l IH]; simpl; [reflexivity |].
  destruct (priority b - priority a <=? 0); [reflexivity |].
  rewrite IH. apply Permutation_swap.
Qed.

Lemma sortByPriority_perm (l : list PriorityItem) : sortByPriority l ≡ₚ l.
Proof.
  induction l as [|a l IH]; simpl; [reflexivity |].
  unfold sortByPriority in *. simpl.
  rewrite insertByPriority_perm, IH. reflexivity.
Qed.

Lemma insertByPriority_sorted (a : PriorityItem) (l : list PriorityItem) :
  Sorted (fun x y => priority y <= priority x) l ->
  Sorted (fun x y => priority y <= priority x) (insertByPriority a l).
Proof.
  induction 1 as [|b l Hl IH Hb]; simpl.
  - repeat constructor.
  - destruct (priority b - priority a <=? 0) eqn:Hcmp.
    + apply Z.leb_le in Hcmp. repeat constructor; [exact Hl | exact Hb | lia].
    + apply Z.leb_gt in Hcmp. constructor; [exact IH |].
      destruct l as [|c l]; simpl.
      * constructor. lia.
      * destruct (priority c - priority a <=? 0); constructor;
          [lia | inversion Hb; assumption].
Qed.

(** The priority order has the larger remaining need first. *)
Lemma sortByPriority_sorted (l : list PriorityItem) :
  Sorted (fun x y => priority y <= priority x) (sortByPriority l).
Proof.
  induction l as [|a l IH]; [constructor |].
  apply insertByPriority_sorted. exact IH.
Qed.

(** The sort is stable: items of one priority keep their order. *)
Lemma insertByPriority_stable (p : Z) (a : PriorityItem) (l : list PriorityItem) :
  List.filter (fun x => priority x =? p) (insertByPriority a l)
  = List.filter (fun x => priority x =? p) (a :: l).
Proof.
  induction l as [|b l IH]; simpl; [reflexivity |].
  destruct (priority b - priority a <=? 0) eqn:Hcmp; [reflexivity |].
  apply Z.leb_gt in Hcmp. simpl in *. rewrite IH.
  destruct (priority a =? p) eqn:Ha; [| reflexivity].
  apply Z.eqb_eq in Ha.
  destruct (priority b =? p) eqn:Hb; [| reflexivity].
  apply Z.eqb_eq in Hb. lia.
Qed.

Lemma sortByPriority_stable (p : Z) (l : list PriorityItem) :
  List.filter (fun x => priority x =? p) (sortByPriority l)
  = List.filter (fun x => priority x =? p) l.
Proof.
  induction l as [|a l IH]; [reflexivity |].
  change (sortByPriority (a :: l)) with (insertByPriority a (sortByPriority l)).
  rewrite insertByPriority_stable. simpl. rewrite IH. reflexivity.
Qed.

Lemma rowPriorities_row (rows : list RowTextData) (item : PriorityItem) :
  item ∈ rowPriorities rows ->
  exists row, rows !! index item = Some row
              /\ minLines row < maxNaturalLines row.
Proof.
  unfold rowPriorities. rewrite sortByPriority_perm.
  rewrite list_elem_of_In, filter_In, <- list_elem_of_In.
  intros [Hin Hneed]. apply elem_of_lookup_imap in Hin.
  destruct Hin as (i & row & -> & Hrow). simpl in *.
  exists row. split; [exact Hrow |]. apply Z.ltb_lt in Hneed. lia.
Qed.

(** ** The loop *)

Section LoopLemmas.

Variable rows : list RowTextData.
Variable budget : Q.

Lemma hasNeedyRows_ok (items : list PriorityItem) (allocation : list Z) :
  (forall item, item ∈ items -> (index item < length rows)%nat) ->
  length allocation = length rows ->
  exists needy, hasNeedyRows rows items allocation = Ok needy.
Proof.
  intros Hitems Hlen. induction items as [|item rest IH]; simpl.
  - eexists; reflexivity.
  - assert (Hi : (index item < length rows)%nat) by (apply Hitems; left).
    destruct (get_lt rows (index item) TypeError Hi) as (row & _ & ->). simpl.
    destruct (get_lt allocation (index item) Undefined) as (lines & _ & ->); [lia |].
    simpl.
    destruct (lines <? maxNaturalLines row); [eexists; reflexivity |].
    apply IH. intros item' Hin. apply Hitems. right. exact Hin.
Qed.

Lemma rowPriorities_lt (item : PriorityItem) :
  item ∈ rowPriorities rows -> (index item < length rows)%nat.
Proof.
  intros Hin. destruct (rowPriorities_row rows item Hin) as (row & Hrow & _).
  eapply lookup_lt_Some. exact Hrow.
Qed.

Lemma grant_ext (st st1 st' : LoopState) :
  grant rows budget st st1 ->
  currentAllocation st' = currentAllocation st1 ->
  currentHeight st' = currentHeight st1 ->
  grant rows budget st st'.
Proof.
  intros [Ha Hh | i lines row Hl Hr Hlt Ha Hh Hfit] Ea Eh.
  - apply grant_none; congruence.
  - eapply grant_line; eauto; congruence.
Qed.

Lemma grant_length (st st' : LoopState) :
  grant rows budget st st' ->
  length (currentAllocation st') = length (currentAllocation st).
Proof.
  intros [Ha Hh | i lines row Hl Hr Hlt Ha Hh Hfit]; rewrite Ha;
    [reflexivity | apply length_insert].
Qed.

Lemma loopBody_grant (st : LoopState) :
  length (currentAllocation st) = length rows ->
  whileCondition rows budget st = true ->
  exists o, loopBody rows budget st = Ok o
            /\ grant rows budget st (flowState o)
            /\ (forall st', o = Next st' ->
                 (stepsLeft rows st' < stepsLeft rows st)%nat).
Proof.
  intros Hlen Hcond. unfold whileCondition in Hcond.
  apply andb_true_iff in Hcond as [Hcond Hit].
  apply andb_true_iff in Hcond as [_ Hpi].
  apply Nat.ltb_lt in Hpi. apply Nat.ltb_lt in Hit.
  destruct (get_lt (rowPriorities rows) (priorityIndex st) Undefined Hpi)
    as (item & Hitem & Hget).
  apply list_elem_of_lookup_2 in Hitem.
  destruct (rowPriorities_row rows item Hitem) as (row & Hrow & _).
  assert (Hi : (index item < length rows)%nat) by (eapply lookup_lt_Some; eauto).
  destruct (get_lt (currentAllocation st) (index item) Undefined)
    as (lines & Hlines & Hgetl); [lia |].
  unfold loopBody. rewrite Hget. simpl.
  rewrite (get_Some _ _ TypeError _ Hrow). simpl. rewrite Hgetl. simpl.
  assert (Esteps : (maxIterations - iterations st
                    = S (maxIterations - S (iterations st)))%nat) by lia.
  destruct (maxNaturalLines row <=? lines) eqn:Hmax.
  { eexists. split; [reflexivity |]. split; [apply grant_none; reflexivity |].
    intros st' [= <-]. unfold stepsLeft. cbn [iterations priorityIndex]. lia. }
  apply Z.leb_gt in Hmax.
  destruct (getCurrentHeight_ok rows (<[index item := lines + 1]> (currentAllocation st)))
    as [testHeight Htest]; [rewrite length_insert; exact Hlen |].
  rewrite Htest. simpl.
  match goal with |- context [hasNeedyRows _ _ (currentAllocation ?s)] => set (st1 := s) end.
  assert (H1 : grant rows budget st st1
               /\ (priorityIndex st1 <= S (priorityIndex st))%nat
               /\ iterations st1 = iterations st).
  { subst st1. destruct (nleb testHeight budget) eqn:Hfit; simpl.
    - split; [eapply grant_line; eauto |].
      split; [destruct (maxNaturalLines row <=? lines + 1); lia | reflexivity].
    - split; [apply grant_none; reflexivity |]. split; [lia | reflexivity]. }
  clearbody st1. destruct H1 as (Hgrant & Hpi1 & Hit1).
  destruct (length (rowPriorities rows) <=? priorityIndex st1)%nat eqn:Hend.
  - destruct (hasNeedyRows_ok (rowPriorities rows) (currentAllocation st1))
      as [needy Hneedy]; [exact rowPriorities_lt | |].
    { rewrite (grant_length _ _ Hgrant). exact Hlen. }
    rewrite Hneedy. simpl.
    destruct needy; (eexists; split; [reflexivity |]);
      (split; [eapply grant_ext; [exact Hgrant | reflexivity | reflexivity] |]).
    + intros st' [= <-]. unfold stepsLeft. cbn [iterations priorityIndex]. rewrite Hit1, Esteps. nia.
    + intros st' [=].
  - apply Nat.leb_gt in Hend.
    eexists. split; [reflexivity |].
    split; [eapply grant_ext; [exact Hgrant | reflexivity | reflexivity] |].
    intros st' [= <-]. unfold stepsLeft. cbn [iterations priorityIndex]. rewrite Hit1, Esteps. nia.
Qed.

(** The loop ends, and what every grant keeps holds at its end. *)
Lemma while_invariant (P : LoopState -> Prop) :
  (forall st st', P st -> grant rows budget st st' -> P st') ->
  forall (fuel : nat) (st : LoopState),
    (stepsLeft rows st < fuel)%nat ->
    length (currentAllocation st) = length rows ->
    P st ->
    exists st', while rows budget fuel st = Ok st' /\ P st'.
Proof.
  intros Hkeep. induction fuel as [|fuel IH]; intros st Hfuel Hlen HP; [lia |].
  simpl. destruct (whileCondition rows budget st) eqn:Hcond.
  - destruct (loopBody_grant st Hlen Hcond) as (o & -> & Hgrant & Hless).
    simpl. destruct o as [st'|st']; simpl in Hgrant.
    + apply IH.
      * specialize (Hless st' eq_refl). lia.
      * rewrite (grant_length _ _ Hgrant). exact Hlen.
      * eapply Hkeep; eauto.
    + exists st'. split; [reflexivity | eapply Hkeep; eauto].
  - exists st. split; [reflexivity | exact HP].
Qed.

(** The state the loop ends in does not depend on the fuel. *)
Lemma while_fuel (fuel fuel' : nat) (st st' : LoopState) :
  (fuel <= fuel')%nat ->
  while rows budget fuel st = Ok st' ->
  while rows budget fuel' st = Ok st'.
Proof.
  revert fuel' st. induction fuel as [|fuel IH]; intros fuel' st Hle; simpl;
    [discriminate |].
  destruct fuel' as [|fuel']; [lia |]. simpl.
  destruct (whileCondition rows budget st); [| auto].
  destruct (loopBody rows budget st) as [[st1|st1]|]; simpl; auto.
  apply IH. lia.
Qed.

(** What [hasNeedyRows] answers. *)
Lemma hasNeedyRows_true (items : list PriorityItem) (allocation : list Z) :
  hasNeedyRows rows items allocation = Ok true ->
  Exists (fun item =>
            exists lines row,
              allocation !! index item = Some lines
              /\ rows !! index item = Some row
              /\ lines < maxNaturalLines row) items.
Proof.
  induction items as [|item rest IH]; simpl; [discriminate |].
  destruct (get rows (index item) TypeError) as [row|] eqn:Hrow; [| discriminate].
  simpl.
  destruct (get allocation (index item) Undefined) as [lines|] eqn:Hlines;
    [| discriminate].
  simpl. apply get_Ok in Hrow, Hlines.
  destruct (lines <? maxNaturalLines row) eqn:Hlt.
  - intros _. apply Exists_cons_hd. exists lines, row.
    apply Z.ltb_lt in Hlt. auto.
  - intros H. apply Exists_cons_tl, IH, H.
Qed.

Lemma hasNeedyRows_false (items : list PriorityItem) (allocation : list Z) :
  hasNeedyRows rows items allocation = Ok false ->
  Forall (fun item =>
            exists lines row,
              allocation !! index item = Some lines
              /\ rows !! index item = Some row
              /\ maxNaturalLines row <= lines) items.
Proof.
  induction items as [|item rest IH]; simpl; [constructor |].
  destruct (get rows (index item) TypeError) as [row|] eqn:Hrow; [| discriminate].
  simpl.
  destruct (get allocation (index item) Undefined) as [lines|] eqn:Hlines;
    [| discriminate].
  simpl. apply get_Ok in Hrow, Hlines.
  destruct (lines <? maxNaturalLines row) eqn:Hlt; [discriminate |].
  intros H. constructor; [| apply IH, H].
  exists lines, row. apply Z.ltb_ge in Hlt. auto.
Qed.

(** The three ways out of the body.  [continue] moves the pointer by one and
    runs no check at the end of the order.  A run that counts an iteration
    leaves the pointer inside the order, wrapped to the start if it had
    passed the end and a row still needs lines.  [break] is taken when the
    pointer has passed the end and no row needs lines. *)
Lemma loopBody_wrap (st : LoopState) (o : flow) :
  whileCondition rows budget st = true ->
  loopBody rows budget st = Ok o ->
  match o with
  | Next st' =>
      (iterations st' = iterations st
       /\ priorityIndex st' = S (priorityIndex st)
       /\ currentAllocation st' = currentAllocation st)
      \/ (iterations st' = S (iterations st)
          /\ (priorityIndex st' < length (rowPriorities rows))%nat)
  | Break st' =>
      hasNeedyRows rows (rowPriorities rows) (currentAllocation st') = Ok false
  end.
Proof.
  intros Hcond Hrun. unfold whileCondition in Hcond.
  apply andb_true_iff in Hcond as [Hcond _].
  apply andb_true_iff in Hcond as [_ Hpi]. apply Nat.ltb_lt in Hpi.
  unfold loopBody in Hrun.
  destruct (get (rowPriorities rows) (priorityIndex st) Undefined) as [item|];
    [| discriminate].
  simpl in Hrun.
  destruct (get rows (index item) TypeError) as [row|]; [| discriminate].
  simpl in Hrun.
  destruct (get (currentAllocation st) (index item) Undefined) as [lines|];
    [| discriminate].
  simpl in Hrun.
  destruct (maxNaturalLines row <=? lines).
  { injection Hrun as <-. left. auto. }
  destruct (getCurrentHeight rows _) as [testHeight|]; [| discriminate].
  simpl in Hrun.
  match type of Hrun with
  | context [hasNeedyRows _ _ (currentAllocation ?s)] => set (st1 := s) in *
  end.
  assert (Hit : iterations st1 = iterations st).
  { subst st1. destruct (nleb testHeight budget); reflexivity. }
  clearbody st1.
  destruct (length (rowPriorities rows) <=? priorityIndex st1)%nat eqn:Hend.
  - destruct (hasNeedyRows rows (rowPriorities rows) (currentAllocation st1))
      as [[|]|] eqn:Hneedy; simpl in Hrun; [| | discriminate];
      injection Hrun as <-; simpl.
    + right. split; [congruence | lia].
    + exact Hneedy.
  - apply Nat.leb_gt in Hend. injection Hrun as <-. simpl.
    right. split; [congruence | exact Hend].
Qed.

End LoopLemmas.

(** ** The allocator returns, and what every grant keeps holds of its result *)

Section ResultLemmas.

Variable rows : list RowTextData.
Variable budget : Q.

Lemma length_minimumAllocation : length (minimumAllocation rows) = length rows.
Proof. apply length_map. Qed.

Lemma length_idealAllocation : length (idealAllocation rows) = length rows.
Proof. apply length_map. Qed.

Lemma loopFuel_S : exists fuel, loopFuel rows = S fuel.
Proof.
  exists (pred (loopFuel rows)). unfold loopFuel. lia.
Qed.

Lemma distribute_invariant (P : list Z -> Prop) :
  P (minimumAllocation rows) ->
  (forall st st', P (currentAllocation st) -> grant rows budget st st' ->
                  P (currentAllocation st')) ->
  exists st, distribute rows budget = Ok st /\ P (currentAllocation st).
Proof.
  intros Hmin Hkeep. unfold distribute.
  destruct (getCurrentHeight_ok rows (minimumAllocation rows)) as [h ->];
    [apply length_minimumAllocation |].
  simpl. apply (while_invariant rows budget (fun st => P (currentAllocation st))).
  - exact Hkeep.
  - unfold stepsLeft, loopFuel. cbn [iterations priorityIndex]. lia.
  - apply length_minimumAllocation.
  - exact Hmin.
Qed.

Lemma calculate_invariant (P : list Z -> Prop) :
  (forall h, getCurrentHeight rows (idealAllocation rows) = Ok h ->
             nleb h budget = true -> P (idealAllocation rows)) ->
  P (minimumAllocation rows) ->
  (forall st st', P (currentAllocation st) -> grant rows budget st st' ->
                  P (currentAllocation st')) ->
  exists allocation,
    calculateOptimalLineDistribution rows budget = Ok allocation /\ P allocation.
Proof.
  intros Hideal Hmin Hkeep. unfold calculateOptimalLineDistribution.
  destruct (getCurrentHeight_ok rows (idealAllocation rows)) as [h Hh];
    [apply length_idealAllocation |].
  rewrite Hh. simpl. destruct (nleb h budget) eqn:Hfit.
  - exists (idealAllocation rows). split; [reflexivity | eauto].
  - destruct (distribute_invariant P Hmin Hkeep) as (st & -> & HP).
    simpl. exists (currentAllocation st). split; [reflexivity | exact HP].
Qed.

(** The loop does not run when the all-minimum height is not below the budget. *)
Lemma calculate_minimum :
  ~ number_le (sumRowHeights rows (idealAllocation rows)) budget ->
  ~ number_lt (sumRowHeights rows (minimumAllocation rows)) budget ->
  calculateOptimalLineDistribution rows budget = Ok (minimumAllocation rows).
Proof.
  intros Hideal Hmin. unfold calculateOptimalLineDistribution, distribute.
  destruct (getCurrentHeight_ok rows (idealAllocation rows)) as [hi Hi];
    [apply length_idealAllocation |].
  destruct (getCurrentHeight_ok rows (minimumAllocation rows)) as [hm Hm];
    [apply length_minimumAllocation |].
  rewrite Hi. simpl.
  destruct (nleb hi budget) eqn:Hfit.
  { exfalso. apply Hideal. apply nleb_le in Hfit.
    eapply number_le_eq; [| exact Hfit]. apply getCurrentHeight_sum. exact Hi. }
  rewrite Hm. simpl. destruct loopFuel_S as [fuel ->]. simpl.
  unfold whileCondition. cbn [currentHeight].
  destruct (nltb hm budget) eqn:Hlt; [| reflexivity].
  exfalso. apply Hmin. apply nltb_lt in Hlt.
  eapply number_lt_eq; [| exact Hlt]. apply getCurrentHeight_sum. exact Hm.
Qed.

(** Every row keeps at least its minimum and at most the larger of its
    minimum and its natural maximum. *)
Lemma calculate_bounds :
  exists allocation,
    calculateOptimalLineDistribution rows budget = Ok allocation
    /\ Forall2 (fun row lines =>
                  minLines row <= lines
                  <= Z.max (maxNaturalLines row) (minLines row))
               rows allocation.
Proof.
  apply calculate_invariant.
  - intros h _ _. unfold idealAllocation. apply Forall2_fmap_r, Forall_Forall2_diag.
    apply Forall_forall. intros row _. simpl. lia.
  - unfold minimumAllocation. apply Forall2_fmap_r, Forall_Forall2_diag.
    apply Forall_forall. intros row _. simpl. lia.
  - intros st st' HP [Ha _ | i lines row Hl Hr Hlt Ha _ _]; rewrite Ha; [exact HP |].
    rewrite <- (list_insert_id rows i row Hr).
    apply Forall2_insert; [exact HP |].
    pose proof (Forall2_lookup_lr _ _ _ _ _ _ HP Hr Hl) as Hb. simpl in Hb. lia.
Qed.

End ResultLemmas.

(** ** Heights of well-formed rows *)

Lemma inject_nat_pos (n : nat) : (0 < inject_Z (Z.of_nat (S n)))%Q.
Proof. unfold Qlt, inject_Z. simpl. lia. Qed.

Lemma total_nonneg (f : CellTextData -> Q) (cells : list CellTextData) :
  Forall (fun c => (0 <= f c)%Q) cells -> (0 <= total (map f cells))%Q.
Proof.
  induction 1 as [|c cells Hc _ IH]; simpl; [apply Qle_refl | lra].
Qed.


Lemma mean_pos (f : CellTextData -> Q) (cells : list CellTextData) (m : Q) :
  Forall (fun c => (0 < f c)%Q) cells ->
  arithmeticMean f cells = Some m -> (0 < m)%Q.
Proof.
  intros Hf. destruct cells as [|c cells]; [discriminate |].
  unfold arithmeticMean. intros [= <-].
  apply Qlt_shift_div_l; [apply inject_nat_pos |].
  rewrite Qmult_0_l. inversion Hf as [|? ? Hc Hcells]; subst. simpl.
  assert (0 <= total (map f cells))%Q; [| lra].
  apply total_nonneg. eapply Forall_impl; [exact Hcells |].
  intros c' Hc'. simpl in Hc'. lra.
Qed.







(** ** The clamps of the cells *)

Lemma clampCell_configs (lines : Z) (cells : list CellTextData) :
  forall state : Q * list CellConfig,
    snd (fold_left (clampCell lines) cells state)
    = snd state ++ map clampOf (map (pair lines) cells).
Proof.
  induction cells as [|c cells IH]; intros state; simpl.
  - rewrite app_nil_r. reflexivity.
  - rewrite IH. simpl. rewrite <- app_assoc. reflexivity.
Qed.

Lemma clampRows_configs (rows : list RowTextData) (allocation : list Z) :
  forall (rowIndex : nat) (layout : GridLayout),
    (rowIndex + length rows <= length allocation)%nat ->
    exists layout',
      clampRows rows rowIndex allocation layout = Ok layout'
      /\ configs layout'
         = configs layout
           ++ map clampOf (cellsWithAllocation rows (drop rowIndex allocation)).
Proof.
  induction rows as [|row rows IH]; intros rowIndex layout Hlen; simpl in *.
  - exists layout. split; [reflexivity |].
    unfold cellsWithAllocation. simpl. rewrite app_nil_r. reflexivity.
  - destruct (get_lt allocation rowIndex Undefined) as (lines & Hlines & ->); [lia |].
    simpl. edestruct IH as (layout' & -> & Hconfigs); [| eexists; split; [reflexivity |]].
    { lia. }
    rewrite Hconfigs. cbn [configs]. rewrite clampCell_configs. cbn [snd].
    rewrite (drop_S _ _ _ Hlines). unfold cellsWithAllocation. simpl.
    rewrite map_app, app_assoc. reflexivity.
Qed.

Lemma applyAllocation_configs (rows : list RowTextData) (allocation : list Z) :
  length allocation = length rows ->
  exists layout,
    applyAllocation rows allocation = Ok layout
    /\ configs layout = map clampOf (cellsWithAllocation rows allocation).
Proof.
  intros Hlen. unfold applyAllocation.
  destruct (clampRows_configs rows allocation 0
              {| configs := []; actualRowHeights := [] |})
    as (layout & Hrun & Hconfigs); [lia |].
  exists layout. split; [exact Hrun |]. rewrite Hconfigs, drop_0. reflexivity.
Qed.

(** ** The aggregate of a row, and the whole pass *)

Lemma aggregateRow_minLines (cellData : list CellTextData) :
  cellData <> [] ->
  Forall (fun c => (0 < lineHeight c)%Q) cellData ->
  exists (row : RowTextData) (overhead unitHeight : Q),
    aggregateRow cellData = Ok row
    /\ cells row = cellData
    /\ arithmeticMean cellPadding cellData = Some overhead
    /\ arithmeticMean lineHeight cellData = Some unitHeight
    /\ minLines row = Z.max 1 (Qceiling ((160 - overhead) / unitHeight)).
Proof.
  intros Hne Hpos.
  destruct (arithmeticMean cellPadding cellData) as [overhead|] eqn:Ho;
    [| destruct cellData; [congruence | discriminate]].
  destruct (arithmeticMean lineHeight cellData) as [unitHeight|] eqn:Hu;
    [| destruct cellData; [congruence | discriminate]].
  pose proof (mean_pos _ _ _ Hpos Hu) as Hupos.
  pose proof (average_mean cellPadding cellData) as Eo. rewrite Ho in Eo.
  pose proof (average_mean lineHeight cellData) as Eu. rewrite Hu in Eu.
  destruct cellData as [|c cs]; [congruence |].
  unfold aggregateRow.
  destruct (average cellPadding (c :: cs)) as [padding|]; [| contradiction].
  destruct (average lineHeight (c :: cs)) as [height|]; [| contradiction].
  simpl in Eo, Eu. unfold computeMinLines.
  destruct (Qeq_bool height 0) eqn:Hzero.
  { apply Qeq_bool_iff in Hzero. exfalso. lra. }
  simpl. eexists _, overhead, unitHeight.
  split; [reflexivity |]. split; [reflexivity |].
  split; [reflexivity |]. split; [reflexivity |].
  cbn [minLines]. f_equal. apply Qceiling_comp. rewrite Eo, Eu. reflexivity.
Qed.


Lemma groupIntoRows_rows {A : Type} (gridItems : list A) :
  Forall (fun row => row <> [] /\ (length row <= 2)%nat) (groupIntoRows gridItems)
  /\ concat (groupIntoRows gridItems) = gridItems.
Proof.
  assert (H : forall (l : list A),
             (Forall (fun row => row <> [] /\ (length row <= 2)%nat) (groupIntoRows l)
              /\ concat (groupIntoRows l) = l)
             /\ forall a,
                 Forall (fun row => row <> [] /\ (length row <= 2)%nat)
                        (groupIntoRows (a :: l))
                 /\ concat (groupIntoRows (a :: l)) = a :: l).
  { induction l as [|b l [[IHrows IHcat] IHcons]].
    - split; [split; [constructor | reflexivity] |].
      intros a. split; [| reflexivity].
      constructor; [split; [discriminate | simpl; lia] | constructor].
    - split; [apply IHcons |].
      intros a. simpl. split.
      + constructor; [split; [discriminate | simpl; lia] | exact IHrows].
      + rewrite IHcat. reflexivity. }
  apply H.
Qed.

Lemma aggregateRows_ok (rows : list (list CellTextData)) :
  Forall (fun row => row <> [] /\ Forall (fun c => (0 < lineHeight c)%Q) row) rows ->
  exists rowTextData,
    aggregateRows rows = Ok rowTextData /\ map cells rowTextData = rows.
Proof.
  induction 1 as [|cellData rows [Hne Hpos] _ (rowTextData & IHrun & IHcells)]; simpl.
  - exists []. split; reflexivity.
  - destruct (aggregateRow_minLines cellData Hne Hpos)
      as (row & _ & _ & -> & Hcells & _).
    simpl. rewrite IHrun. simpl. exists (row :: rowTextData).
    split; [reflexivity |]. simpl. rewrite Hcells, IHcells. reflexivity.
Qed.

(** On cells with positive line heights the pass returns a clamp for every
    cell. *)
Lemma calculateGridWithLineClamp_configs (gridItems : list CellTextData) :
  Forall (fun c => (0 < lineHeight c)%Q) gridItems ->
  exists rowTextData allocation layout,
    aggregateRows (groupIntoRows gridItems) = Ok rowTextData
    /\ calculateOptimalLineDistribution rowTextData 740 = Ok allocation
    /\ calculateGridWithLineClamp gridItems = Ok layout
    /\ configs layout = map clampOf (cellsWithAllocation rowTextData allocation)
    /\ map cc_element (configs layout) = map content gridItems.
Proof.
  intros Hpos. destruct (groupIntoRows_rows gridItems) as [Hrows Hcat].
  destruct (aggregateRows_ok (groupIntoRows gridItems))
    as (rowTextData & Hagg & Hcells).
  { rewrite <- Hcat in Hpos. apply Forall_concat in Hpos.
    rewrite Forall_forall in Hrows, Hpos |- *.
    intros row Hrow. split; [apply Hrows | apply Hpos]; exact Hrow. }
  destruct (calculate_bounds rowTextData 740) as (allocation & Hrun & Hb).
  destruct (applyAllocation_configs rowTextData allocation)
    as (layout & Happly & Hconfigs).
  { symmetry. eapply Forall2_length. exact Hb. }
  exists rowTextData, allocation, layout.
  split; [exact Hagg |]. split; [exact Hrun |].
  split; [unfold calculateGridWithLineClamp; rewrite Hagg; simpl; rewrite Hrun; exact Happly |].
  split; [exact Hconfigs |].
  rewrite Hconfigs, <- Hcat, <- Hcells.
  apply Forall2_length in Hb. clear -Hb. unfold cellsWithAllocation.
  revert allocation Hb. induction rowTextData as [|row rows IH];
    intros [|lines allocation] Hlen; simpl in *; try discriminate; [reflexivity |].
  rewrite !map_app, IH by congruence.
  f_equal. rewrite !map_map. reflexivity.
Qed.

(** * The allocator on binary64 numbers: the order and the loop *)

(** ** The order of binary64 numbers

    [<=?] and [<?] on primitive floats are specified by [leb_spec] and
    [ltb_spec] as the comparison of sign, exponent and mantissa, with [NaN]
    comparable to nothing. *)

Lemma SFleb_trans (x y z : spec_float) :
  SFleb x y = true -> SFleb y z = true -> SFleb x z = true.
Proof.
  unfold SFleb.
  destruct x as [sx|sx| |sx mx ex], y as [sy|sy| |sy my ey], z as [sz|sz| |sz mz ez];
    simpl; try discriminate; try reflexivity;
    try (destruct sx); try (destruct sy); try (destruct sz); simpl;
    try discriminate; try reflexivity; intros H1 H2; order_cases.
Qed.

Lemma SFltb_leb_trans (x y z : spec_float) :
  SFltb x y = true -> SFleb y z = true -> SFltb x z = true.
Proof.
  unfold SFleb, SFltb.
  destruct x as [sx|sx| |sx mx ex], y as [sy|sy| |sy my ey], z as [sz|sz| |sz mz ez];
    simpl; try discriminate; try reflexivity;
    try (destruct sx); try (destruct sy); try (destruct sz); simpl;
    try discriminate; try reflexivity; intros H1 H2; order_cases.
Qed.

(** [h <= b1] and [b1 <= b2] give [h <= b2], and so with [h < b1]. *)
Lemma leb_budget (h b1 b2 : float) :
  (b1 <=? b2)%float = true -> (h <=? b1)%float = true -> (h <=? b2)%float = true.
Proof. rewrite !leb_spec. intros H12 H1. eapply SFleb_trans; eauto. Qed.

Lemma ltb_budget (h b1 b2 : float) :
  (b1 <=? b2)%float = true -> (h <? b1)%float = true -> (h <? b2)%float = true.
Proof. rewrite !ltb_spec, leb_spec. intros H12 H1. eapply SFltb_leb_trans; eauto. Qed.

(** ** The loop

    In this section and the next the names are those of [Binary64]. *)

Section Binary64Loop.

Import Binary64.

Variable rows : list RowTextData.
Variable budget : float.

Lemma reduceHeight_returns (allocation : list Z) :
  forall (index : nat) (sum : float),
    (index + length allocation <= length rows)%nat ->
    exists h, reduceHeight rows allocation index sum = Ok h.
Proof.
  induction allocation as [|lines rest IH]; intros index sum Hlen; simpl in *.
  - eexists; reflexivity.
  - destruct (get_lt rows index TypeError) as (row & _ & Hget); [lia |].
    rewrite Hget. simpl. apply IH. lia.
Qed.

Lemma getCurrentHeight_returns (allocation : list Z) :
  length allocation = length rows ->
  exists h, getCurrentHeight rows allocation = Ok h.
Proof. intros H. apply reduceHeight_returns. lia. Qed.

Lemma rowPriorities_member (item : PriorityItem) :
  item ∈ rowPriorities rows ->
  exists row, rows !! index item = Some row
              /\ minLines row < maxNaturalLines row.
Proof.
  unfold rowPriorities. rewrite sortByPriority_perm.
  rewrite list_elem_of_In, filter_In, <- list_elem_of_In.
  intros [Hin Hneed]. apply elem_of_lookup_imap in Hin.
  destruct Hin as (i & row & -> & Hrow). simpl in *.
  exists row. split; [exact Hrow |]. apply Z.ltb_lt in Hneed. lia.
Qed.

Lemma hasNeedyRows_returns (items : list PriorityItem) (allocation : list Z) :
  (forall item, item ∈ items -> (index item < length rows)%nat) ->
  length allocation = length rows ->
  exists needy, hasNeedyRows rows items allocation = Ok needy.
Proof.
  intros Hitems Hlen. induction items as [|item rest IH]; simpl.
  - eexists; reflexivity.
  - assert (Hi : (index item < length rows)%nat) by (apply Hitems; left).
    destruct (get_lt rows (index item) TypeError Hi) as (row & _ & ->). simpl.
    destruct (get_lt allocation (index item) Undefined) as (lines & _ & ->); [lia |].
    simpl.
    destruct (lines <? maxNaturalLines row); [eexists; reflexivity |].
    apply IH. intros item' Hin. apply Hitems. right. exact Hin.
Qed.

Lemma grant_same (st st1 st' : LoopState) :
  grant rows budget st st1 ->
  currentAllocation st' = currentAllocation st1 ->
  currentHeight st' = currentHeight st1 ->
  grant rows budget st st'.
Proof.
  intros [Ha Hh | i lines row Hl Hr Hlt Ha Hh Hfit] Ea Eh.
  - apply grant_none; congruence.
  - eapply grant_line; eauto; congruence.
Qed.

Lemma grant_keeps_length (st st' : LoopState) :
  grant rows budget st st' ->
  length (currentAllocation st') = length (currentAllocation st).
Proof.
  intros [Ha Hh | i lines row Hl Hr Hlt Ha Hh Hfit]; rewrite Ha;
    [reflexivity | apply length_insert].
Qed.

(** A run of the body returns, grants at most one line and brings the loop
    nearer to its end. *)
Lemma loopBody_returns (st : LoopState) :
  length (currentAllocation st) = length rows ->
  whileCondition rows budget st = true ->
  exists o, loopBody rows budget st = Ok o
            /\ grant rows budget st (flowState o)
            /\ (forall st', o = Next st' ->
                 (stepsLeft rows st' < stepsLeft rows st)%nat).
Proof.
  intros Hlen Hcond. unfold whileCondition in Hcond.
  apply andb_true_iff in Hcond as [Hcond Hit].
  apply andb_true_iff in Hcond as [_ Hpi].
  apply Nat.ltb_lt in Hpi. apply Nat.ltb_lt in Hit.
  destruct (get_lt (rowPriorities rows) (priorityIndex st) Undefined Hpi)
    as (item & Hitem & Hget).
  apply list_elem_of_lookup_2 in Hitem.
  destruct (rowPriorities_member item Hitem) as (row & Hrow & _).
  assert (Hi : (index item < length rows)%nat) by (eapply lookup_lt_Some; eauto).
  destruct (get_lt (currentAllocation st) (index item) Undefined)
    as (lines & Hlines & Hgetl); [lia |].
  unfold loopBody. rewrite Hget. simpl.
  rewrite (get_Some _ _ TypeError _ Hrow). simpl. rewrite Hgetl. simpl.
  assert (Esteps : (maxIterations - iterations st
                    = S (maxIterations - S (iterations st)))%nat) by lia.
  destruct (maxNaturalLines row <=? lines) eqn:Hmax.
  { eexists. split; [reflexivity |]. split; [apply grant_none; reflexivity |].
    intros st' [= <-]. unfold stepsLeft. cbn [iterations priorityIndex]. lia. }
  apply Z.leb_gt in Hmax.
  destruct (getCurrentHeight_returns (<[index item := lines + 1]> (currentAllocation st)))
    as [testHeight Htest]; [rewrite length_insert; exact Hlen |].
  rewrite Htest. simpl.
  match goal with |- context [hasNeedyRows _ _ (currentAllocation ?s)] => set (st1 := s) end.
  assert (H1 : grant rows budget st st1
               /\ (priorityIndex st1 <= S (priorityIndex st))%nat
               /\ iterations st1 = iterations st).
  { subst st1. destruct (testHeight <=? budget)%float eqn:Hfit; simpl.
    - split; [eapply grant_line; eauto |].
      split; [destruct (maxNaturalLines row <=? lines + 1); lia | reflexivity].
    - split; [apply grant_none; reflexivity |]. split; [lia | reflexivity]. }
  clearbody st1. destruct H1 as (Hgrant & Hpi1 & Hit1).
  assert (Hin : forall item, item ∈ rowPriorities rows -> (index item < length rows)%nat).
  { intros item' Hin'. destruct (rowPriorities_member item' Hin') as (row' & Hrow' & _).
    eapply lookup_lt_Some. exact Hrow'. }
  destruct (length (rowPriorities rows) <=? priorityIndex st1)%nat eqn:Hend.
  - destruct (hasNeedyRows_returns (rowPriorities rows) (currentAllocation st1))
      as [needy Hneedy]; [exact Hin | |].
    { rewrite (grant_keeps_length _ _ Hgrant). exact Hlen. }
    rewrite Hneedy. simpl.
    destruct needy; (eexists; split; [reflexivity |]);
      (split; [eapply grant_same; [exact Hgrant | reflexivity | reflexivity] |]).
    + intros st' [= <-]. unfold stepsLeft. cbn [iterations priorityIndex]. rewrite Hit1, Esteps. nia.
    + intros st' [=].
  - apply Nat.leb_gt in Hend.
    eexists. split; [reflexivity |].
    split; [eapply grant_same; [exact Hgrant | reflexivity | reflexivity] |].
    intros st' [= <-]. unfold stepsLeft. cbn [iterations priorityIndex]. rewrite Hit1, Esteps. nia.
Qed.

(** The loop ends, and what every grant keeps holds at its end. *)
Lemma while_returns (P : LoopState -> Prop) :
  (forall st st', P st -> grant rows budget st st' -> P st') ->
  forall (fuel : nat) (st : LoopState),
    (stepsLeft rows st < fuel)%nat ->
    length (currentAllocation st) = length rows ->
    P st ->
    exists st', while rows budget fuel st = Ok st' /\ P st'.
Proof.
  intros Hkeep. induction fuel as [|fuel IH]; intros st Hfuel Hlen HP; [lia |].
  simpl. destruct (whileCondition rows budget st) eqn:Hcond.
  - destruct (loopBody_returns st Hlen Hcond) as (o & -> & Hgrant & Hless).
    simpl. destruct o as [st'|st']; simpl in Hgrant.
    + apply IH.
      * specialize (Hless st' eq_refl). lia.
      * rewrite (grant_keeps_length _ _ Hgrant). exact Hlen.
      * eapply Hkeep; eauto.
    + exists st'. split; [reflexivity | eapply Hkeep; eauto].
  - exists st. split; [reflexivity | exact HP].
Qed.

Lemma distribute_returns (P : list Z -> float -> Prop) :
  (forall h, getCurrentHeight rows (minimumAllocation rows) = Ok h ->
             P (minimumAllocation rows) h) ->
  (forall st st', P (currentAllocation st) (currentHeight st) ->
                  grant rows budget st st' ->
                  P (currentAllocation st') (currentHeight st')) ->
  exists st, distribute rows budget = Ok st
             /\ P (currentAllocation st) (currentHeight st).
Proof.
  intros Hmin Hkeep. unfold distribute.
  destruct (getCurrentHeight_returns (minimumAllocation rows)) as [h Hh];
    [apply length_map |].
  rewrite Hh. simpl.
  apply (while_returns (fun st => P (currentAllocation st) (currentHeight st))).
  - exact Hkeep.
  - unfold stepsLeft, loopFuel. cbn [iterations priorityIndex]. lia.
  - apply length_map.
  - apply Hmin. exact Hh.
Qed.

Lemma calculate_returns (P : list Z -> Prop) :
  (forall h, getCurrentHeight rows (idealAllocation rows) = Ok h ->
             (h <=? budget)%float = true -> P (idealAllocation rows)) ->
  (forall h, getCurrentHeight rows (minimumAllocation rows) = Ok h ->
             P (minimumAllocation rows)) ->
  (forall st st', P (currentAllocation st) -> grant rows budget st st' ->
                  P (currentAllocation st')) ->
  exists allocation,
    calculateOptimalLineDistribution rows budget = Ok allocation /\ P allocation.
Proof.
  intros Hideal Hmin Hkeep. unfold calculateOptimalLineDistribution.
  destruct (getCurrentHeight_returns (idealAllocation rows)) as [h Hh];
    [apply length_map |].
  rewrite Hh. simpl. destruct (h <=? budget)%float eqn:Hfit.
  - exists (idealAllocation rows). split; [reflexivity | eauto].
  - destruct (distribute_returns (fun allocation _ => P allocation) Hmin Hkeep)
      as (st & -> & HP).
    simpl. exists (currentAllocation st). split; [reflexivity | exact HP].
Qed.

Lemma withinBounds_grant (st st' : LoopState) :
  withinBounds rows (currentAllocation st) ->
  grant rows budget st st' ->
  withinBounds rows (currentAllocation st').
Proof.
  intros HP [Ha _ | i lines row Hl Hr Hlt Ha _ _]; rewrite Ha; [exact HP |].
  unfold withinBounds. rewrite <- (list_insert_id rows i row Hr).
  apply Forall2_insert; [exact HP |].
  pose proof (Forall2_lookup_lr _ _ _ _ _ _ HP Hr Hl) as Hb. simpl in Hb. lia.
Qed.

Lemma withinBounds_minimum : withinBounds rows (minimumAllocation rows).
Proof.
  unfold withinBounds, minimumAllocation. apply Forall2_fmap_r, Forall_Forall2_diag.
  apply Forall_forall. intros row _. simpl. lia.
Qed.

Lemma withinBounds_ideal : withinBounds rows (idealAllocation rows).
Proof.
  unfold withinBounds, idealAllocation. apply Forall2_fmap_r, Forall_Forall2_diag.
  apply Forall_forall. intros row _. simpl. lia.
Qed.

Lemma calculate_withinBounds :
  exists allocation,
    calculateOptimalLineDistribution rows budget = Ok allocation
    /\ withinBounds rows allocation.
Proof.
  apply calculate_returns.
  - intros h _ _. apply withinBounds_ideal.
  - intros h _. apply withinBounds_minimum.
  - apply withinBounds_grant.
Qed.

(** The height the code has computed for the allocation it returns is
    within the budget, when the height it computes for the all-minimum
    allocation is. *)
Lemma calculate_heightWithin :
  heightWithin rows budget (minimumAllocation rows) ->
  exists allocation,
    calculateOptimalLineDistribution rows budget = Ok allocation
    /\ heightWithin rows budget allocation.
Proof.
  intros Hmin. apply calculate_returns.
  - intros h Hh Hfit. exists h. split; assumption.
  - intros h _. exact Hmin.
  - intros st st' HP [Ha _ | i lines row _ _ _ _ Hh Hfit];
      [rewrite Ha; exact HP |].
    exists (currentHeight st'). split; assumption.
Qed.

End Binary64Loop.

(** ** Two budgets *)

Section Binary64Budgets.

Import Binary64.

Variable rows : list RowTextData.
Variables b1 b2 : float.
Hypothesis Hbudgets : (b1 <=? b2)%float = true.

Lemma whileCondition_budgets (st : LoopState) :
  whileCondition rows b1 st = true -> whileCondition rows b2 st = true.
Proof.
  unfold whileCondition. rewrite !andb_true_iff. intros [[Hh Hpi] Hit].
  repeat split; [| exact Hpi | exact Hit].
  eapply ltb_budget; eauto.
Qed.

(** The body does the same with both budgets, unless it tests a line that
    only the larger budget has room for. *)
Lemma loopBody_budgets (st : LoopState) :
  loopBody rows b1 st = loopBody rows b2 st
  \/ exists (item : PriorityItem) (row : RowTextData) (lines : Z) (testHeight : float),
       rows !! index item = Some row
       /\ currentAllocation st !! index item = Some lines
       /\ lines < maxNaturalLines row
       /\ getCurrentHeight rows (<[index item := lines + 1]> (currentAllocation st))
          = Ok testHeight
       /\ (testHeight <=? b1)%float = false.
Proof.
  unfold loopBody.
  destruct (get (rowPriorities rows) (priorityIndex st) Undefined) as [item|];
    [| left; reflexivity].
  simpl.
  destruct (get rows (index item) TypeError) as [row|] eqn:Hrow; [| left; reflexivity].
  simpl.
  destruct (get (currentAllocation st) (index item) Undefined) as [lines|] eqn:Hlines;
    [| left; reflexivity].
  simpl.
  destruct (maxNaturalLines row <=? lines) eqn:Hmax; [left; reflexivity |].
  destruct (getCurrentHeight rows _) as [testHeight|] eqn:Htest; [| left; reflexivity].
  simpl.
  destruct (testHeight <=? b1)%float eqn:H1.
  - rewrite (leb_budget _ _ _ Hbudgets H1). left. reflexivity.
  - destruct (testHeight <=? b2)%float eqn:H2; [| left; reflexivity].
    right. exists item, row, lines, testHeight.
    apply get_Ok in Hrow, Hlines. apply Z.leb_gt in Hmax. auto.
Qed.

(** The loop only adds lines. *)
Lemma while_grows (budget : float) (fuel : nat) (st : LoopState) :
  (stepsLeft rows st < fuel)%nat ->
  length (currentAllocation st) = length rows ->
  exists st', while rows budget fuel st = Ok st'
              /\ Forall2 Z.le (currentAllocation st) (currentAllocation st').
Proof.
  intros Hfuel Hlen.
  apply (while_returns rows budget
           (fun st' => Forall2 Z.le (currentAllocation st) (currentAllocation st')));
    [| exact Hfuel | exact Hlen | apply Forall_Forall2_diag, Forall_forall; intros; lia].
  intros s s' HP [Ha _ | i lines row Hl _ _ Ha _ _]; rewrite Ha; [exact HP |].
  destruct (Forall2_lookup_r _ _ _ _ _ HP Hl) as (x & Hx & Hle).
  rewrite <- (list_insert_id _ _ _ Hx). apply Forall2_insert; [exact HP | lia].
Qed.

(** Once a line is refused, every line is: with [sameHeightForAnyRow] the
    loop leaves the allocation as it is. *)
Lemma while_stuck (fuel : nat) (st : LoopState) (i : nat) (li : Z)
    (rowi : RowTextData) (testHeight : float) :
  sameHeightForAnyRow rows ->
  (stepsLeft rows st < fuel)%nat ->
  length (currentAllocation st) = length rows ->
  withinBounds rows (currentAllocation st) ->
  currentAllocation st !! i = Some li ->
  rows !! i = Some rowi ->
  li < maxNaturalLines rowi ->
  getCurrentHeight rows (<[i := li + 1]> (currentAllocation st)) = Ok testHeight ->
  (testHeight <=? b1)%float = false ->
  exists st', while rows b1 fuel st = Ok st'
              /\ currentAllocation st' = currentAllocation st.
Proof.
  intros Hsame Hfuel Hlen Hbounds Hli Hrowi Hlt Htest Hrefused.
  apply (while_returns rows b1
           (fun st' => currentAllocation st' = currentAllocation st));
    [| exact Hfuel | exact Hlen | reflexivity].
  intros s s' HP [Ha _ | j lj rowj Hlj Hrowj Hltj Ha Hh Hfit]; [congruence |].
  exfalso. rewrite HP in Hlj, Ha.
  rewrite Ha in Hh.
  rewrite <- (Hsame _ i j li lj rowi rowj Hbounds Hli Hrowi Hlt Hlj Hrowj Hltj) in Hh.
  congruence.
Qed.

Lemma while_budgets (fuel : nat) :
  sameHeightForAnyRow rows ->
  forall st : LoopState,
    (stepsLeft rows st < fuel)%nat ->
    length (currentAllocation st) = length rows ->
    withinBounds rows (currentAllocation st) ->
    exists st1 st2,
      while rows b1 fuel st = Ok st1
      /\ while rows b2 fuel st = Ok st2
      /\ Forall2 Z.le (currentAllocation st1) (currentAllocation st2).
Proof.
  intros Hsame. induction fuel as [|fuel IH]; intros st Hfuel Hlen Hbounds; [lia |].
  destruct (whileCondition rows b1 st) eqn:Hcond1.
  - destruct (loopBody_budgets st)
      as [Hbody | (item & row & lines & testHeight & Hrow & Hlines & Hlt & Htest & Hrefused)].
    + pose proof (whileCondition_budgets st Hcond1) as Hcond2.
      destruct (loopBody_returns rows b1 st Hlen Hcond1) as (o & Ho & Hgrant & Hless).
      simpl. rewrite Hcond1, Hcond2, <- Hbody, Ho. simpl.
      destruct o as [st'|st']; simpl in Hgrant.
      * apply IH.
        -- specialize (Hless st' eq_refl). lia.
        -- rewrite (grant_keeps_length _ _ _ _ Hgrant). exact Hlen.
        -- eapply withinBounds_grant; eauto.
      * exists st', st'. repeat split.
        apply Forall_Forall2_diag, Forall_forall. intros; lia.
    + destruct (while_stuck (S fuel) st (index item) lines row testHeight)
        as (st1 & Hrun1 & Ha1); auto.
      destruct (while_grows b2 (S fuel) st Hfuel Hlen) as (st2 & Hrun2 & Hgrow).
      exists st1, st2. rewrite Ha1. auto.
  - destruct (while_grows b2 (S fuel) st Hfuel Hlen) as (st2 & Hrun2 & Hgrow).
    exists st, st2. split; [simpl; rewrite Hcond1; reflexivity | auto].
Qed.

(** No row gets fewer lines with the larger budget, in each of three cases. *)
Lemma calculate_budgets :
  heightWithin rows b2 (idealAllocation rows)
  \/ ~ heightBelow rows b1 (minimumAllocation rows)
  \/ sameHeightForAnyRow rows ->
  exists a1 a2,
    calculateOptimalLineDistribution rows b1 = Ok a1
    /\ calculateOptimalLineDistribution rows b2 = Ok a2
    /\ Forall2 Z.le a1 a2.
Proof.
  intros Hcases.
  destruct (calculate_withinBounds rows b1) as (a1 & Hrun1 & Hb1).
  destruct (calculate_withinBounds rows b2) as (a2 & Hrun2 & Hb2).
  exists a1, a2. split; [exact Hrun1 |]. split; [exact Hrun2 |].
  assert (Hup : Forall2 Z.le a1 (idealAllocation rows)).
  { unfold idealAllocation. apply Forall2_fmap_r, Forall2_flip.
    eapply Forall2_impl; [exact Hb1 |]. intros row lines [_ H]. exact H. }
  assert (Hdown : Forall2 Z.le (minimumAllocation rows) a2).
  { unfold minimumAllocation. apply Forall2_fmap_l.
    eapply Forall2_impl; [exact Hb2 |]. intros row lines [H _]. exact H. }
  unfold calculateOptimalLineDistribution in Hrun1, Hrun2.
  destruct (getCurrentHeight_returns rows (idealAllocation rows)) as [hi Hi];
    [apply length_map |].
  rewrite Hi in Hrun1, Hrun2. simpl in Hrun1, Hrun2.
  destruct (hi <=? b2)%float eqn:Hfit2.
  { injection Hrun2 as <-. exact Hup. }
  destruct (hi <=? b1)%float eqn:Hfit1.
  { rewrite (leb_budget _ _ _ Hbudgets Hfit1) in Hfit2. discriminate. }
  destruct Hcases as [(h & Hh & Hfit) | [Hmin | Hsame]].
  - congruence.
  - unfold distribute in Hrun1.
    destruct (getCurrentHeight_returns rows (minimumAllocation rows)) as [hm Hm];
      [apply length_map |].
    rewrite Hm in Hrun1. simpl in Hrun1.
    assert (Hfuel : exists fuel, loopFuel rows = S fuel).
    { exists (pred (loopFuel rows)). unfold loopFuel. lia. }
    destruct Hfuel as [fuel Hfuel]. rewrite Hfuel in Hrun1. simpl in Hrun1.
    unfold whileCondition in Hrun1. cbn [currentHeight] in Hrun1.
    destruct (hm <? b1)%float eqn:Hlt.
    { exfalso. apply Hmin. exists hm. auto. }
    simpl in Hrun1. injection Hrun1 as <-. exact Hdown.
  - unfold distribute in Hrun1, Hrun2.
    destruct (getCurrentHeight_returns rows (minimumAllocation rows)) as [hm Hm];
      [apply length_map |].
    rewrite Hm in Hrun1, Hrun2. simpl in Hrun1, Hrun2.
    destruct (while_budgets (loopFuel rows) Hsame
                {| currentAllocation := minimumAllocation rows;
                   currentHeight := hm; priorityIndex := 0; iterations := 0 |})
      as (st1 & st2 & Hw1 & Hw2 & Hle).
    + unfold stepsLeft, loopFuel. cbn [iterations priorityIndex]. lia.
    + apply length_map.
    + apply withinBounds_minimum.
    + rewrite Hw1 in Hrun1. rewrite Hw2 in Hrun2. simpl in Hrun1, Hrun2.
      injection Hrun1 as <-. injection Hrun2 as <-. exact Hle.
Qed.

End Binary64Budgets.

(** * The properties of the allocation *)

(** C1, as the specification states it, fails: on the rows the measurement
    pass computes for [gridD] the all-minimum allocation, 9, 7 and 7 lines,
    fits the budget of 740, and the allocator returns 24, 7 and 7 lines.
    The code computes a height of 740 for them, where the sum of their row
    heights is above 740, both with the line heights and paddings of the
    cells taken as exact numbers and with every row height computed and
    added in binary64. *)
Lemma budget_invariant_counterexample :
  Binary64.aggregateRows (groupIntoRows gridD) = Ok exD
  /\ map Binary64.minLines exD = [9; 7; 7]
  /\ Binary64.calculateOptimalLineDistribution exD 740 = Ok [24; 7; 7]
  /\ Binary64.getCurrentHeight exD [24; 7; 7] = Ok 740%float
  /\ (exists rows,
        exactRows exD = Some rows
        /\ number_le (sumRowHeights rows [9; 7; 7]) 740
        /\ number_gt (sumRowHeights rows [24; 7; 7]) 740)
  /\ (Binary64.sumRowHeights exD [9; 7; 7]%Z <=? 740)%float = true
  /\ (740 <? Binary64.sumRowHeights exD [24; 7; 7]%Z)%float = true.
Proof.
  split; [vm_compute; reflexivity |].
  split; [reflexivity |].
  split; [vm_compute; reflexivity |].
  split; [vm_compute; reflexivity |].
  split.
  { eexists. split; [vm_compute; reflexivity |].
    split; [vm_compute; discriminate | vm_compute; reflexivity]. }
  split; vm_compute; reflexivity.
Qed.

(** C1, amended (budget invariant, soft): if the height the code computes
    for the all-minimum allocation is at most the budget, the allocator
    returns an allocation for which it computes a height of at most the
    budget.  The heights are the binary64 numbers of [getCurrentHeight],
    summed over the rows from the left as
    [(sum + lines * avgLineHeight) + avgPadding], every operation rounded. *)
Theorem budget_invariant (rows : list Binary64.RowTextData) (heightBudget : float) :
  Binary64.heightWithin rows heightBudget (Binary64.minimumAllocation rows) ->
  exists (allocation : list Z) (height : float),
    Binary64.calculateOptimalLineDistribution rows heightBudget = Ok allocation
    /\ Binary64.getCurrentHeight rows allocation = Ok height
    /\ (height <=? heightBudget)%float = true.
Proof.
  intros Hmin.
  destruct (calculate_heightWithin rows heightBudget Hmin)
    as (allocation & Hrun & height & Hheight & Hfit).
  exists allocation, height. auto.
Qed.

Lemma budget_invariant_witness :
  Binary64.heightWithin exD 740 (Binary64.minimumAllocation exD)
  /\ exists (allocation : list Z) (height : float),
       Binary64.calculateOptimalLineDistribution exD 740 = Ok allocation
       /\ Binary64.getCurrentHeight exD allocation = Ok height
       /\ (height <=? 740)%float = true.
Proof.
  assert (H : Binary64.heightWithin exD 740 (Binary64.minimumAllocation exD)).
  { eexists. split; vm_compute; reflexivity. }
  split; [exact H | exact (budget_invariant exD 740%float H)].
Defined.

(** C2, as the specification states it, fails: on the rows the measurement
    pass computes for [gridE] the ideal allocation, 22, 9 and 8 lines, has
    a sum of row heights of at most 740, with the line heights and paddings
    taken as exact numbers as well as with every row height computed and
    added in binary64.  The code computes a height above 740 for it, and
    the allocator returns 22, 9 and 7 lines. *)
Lemma ideal_shortcut_counterexample :
  Binary64.aggregateRows (groupIntoRows gridE) = Ok exE
  /\ Binary64.idealAllocation exE = [22; 9; 8]
  /\ (exists rows,
        exactRows exE = Some rows
        /\ number_le (sumRowHeights rows [22; 9; 8]) 740)
  /\ (Binary64.sumRowHeights exE [22; 9; 8]%Z <=? 740)%float = true
  /\ (exists idealHeight,
        Binary64.getCurrentHeight exE [22; 9; 8] = Ok idealHeight
        /\ (740 <? idealHeight)%float = true)
  /\ Binary64.calculateOptimalLineDistribution exE 740 = Ok [22; 9; 7]
  /\ [22; 9; 7] <> Binary64.idealAllocation exE.
Proof.
  split; [vm_compute; reflexivity |].
  split; [reflexivity |].
  split.
  { eexists. split; [vm_compute; reflexivity | vm_compute; discriminate]. }
  split; [vm_compute; reflexivity |].
  split.
  { eexists. split; vm_compute; reflexivity. }
  split; [vm_compute; reflexivity | discriminate].
Qed.

(** C2, amended (ideal shortcut): if the height the code computes for the
    ideal allocation, with [max (maxNaturalLines row) (minLines row)] lines
    for every row, is at most the budget, the allocator returns exactly that
    allocation.  The height is the binary64 number of [getCurrentHeight]. *)
Theorem ideal_shortcut (rows : list Binary64.RowTextData) (heightBudget : float) :
  Binary64.heightWithin rows heightBudget (Binary64.idealAllocation rows) ->
  Binary64.calculateOptimalLineDistribution rows heightBudget
  = Ok (map (fun row => Z.max (Binary64.maxNaturalLines row) (Binary64.minLines row))
            rows).
Proof.
  intros (idealHeight & Hheight & Hfit).
  unfold Binary64.calculateOptimalLineDistribution.
  rewrite Hheight. simpl. rewrite Hfit. reflexivity.
Qed.

Lemma ideal_shortcut_witness :
  Binary64.heightWithin exD 1000 (Binary64.idealAllocation exD)
  /\ Binary64.calculateOptimalLineDistribution exD 1000
     = Ok (map (fun row => Z.max (Binary64.maxNaturalLines row) (Binary64.minLines row))
               exD).
Proof.
  assert (H : Binary64.heightWithin exD 1000 (Binary64.idealAllocation exD)).
  { eexists. split; vm_compute; reflexivity. }
  split; [exact H | exact (ideal_shortcut exD 1000%float H)].
Defined.

(** C3 (floor invariant): for every grid and every budget the allocator
    returns an allocation with one entry per row, and every entry is at
    least the minimum of its row. *)
Theorem floor_invariant (rows : list RowTextData) (heightBudget : Q) :
  exists allocation,
    calculateOptimalLineDistribution rows heightBudget = Ok allocation
    /\ Forall2 (fun row lines => minLines row <= lines) rows allocation.
Proof.
  destruct (calculate_bounds rows heightBudget) as (allocation & Hrun & Hb).
  exists allocation. split; [exact Hrun |].
  eapply Forall2_impl; [exact Hb |]. intros row lines H. simpl in H. lia.
Qed.

(** C4, as the specification states it, fails: in scenario A of the
    specification the single row has a natural maximum of 5 lines and a
    minimum of 8, and the allocator returns 8 lines for it. *)
Lemma ceiling_invariant_counterexample :
  aggregateRows (groupIntoRows scenarioA) = Ok exA
  /\ calculateOptimalLineDistribution exA 740 = Ok [8]
  /\ map maxNaturalLines exA = [5]
  /\ ~ Forall2 (fun row lines => lines <= maxNaturalLines row) exA [8].
Proof.
  split; [vm_compute; reflexivity |].
  split; [vm_compute; reflexivity |]. split; [reflexivity |].
  intros H. inversion H as [|? ? ? ? Hle _]; subst. simpl in Hle. lia.
Qed.

(** C4, amended (ceiling invariant): every row whose minimum is not above
    its natural maximum gets at most its natural maximum. *)
Theorem ceiling_invariant (rows : list RowTextData) (heightBudget : Q) :
  exists allocation,
    calculateOptimalLineDistribution rows heightBudget = Ok allocation
    /\ Forall2 (fun row lines =>
                  minLines row <= maxNaturalLines row ->
                  lines <= maxNaturalLines row)
               rows allocation.
Proof.
  destruct (calculate_bounds rows heightBudget) as (allocation & Hrun & Hb).
  exists allocation. split; [exact Hrun |].
  eapply Forall2_impl; [exact Hb |]. intros row lines H Hle. simpl in H. lia.
Qed.

Lemma ceiling_invariant_witness :
  exists allocation,
    calculateOptimalLineDistribution exB 450 = Ok allocation
    /\ Forall2 (fun row lines =>
                  minLines row <= maxNaturalLines row ->
                  lines <= maxNaturalLines row)
               exB allocation.
Proof. exact (ceiling_invariant exB 450). Defined.

(** C10 (the ceiling that holds without a condition): every entry of the
    returned allocation is at most the larger of the natural maximum and the
    minimum of its row; and a run of the loop body leaves the allocation as
    it is or gives one line to a row that is below its natural maximum. *)
Theorem ceiling_or_floor (rows : list RowTextData) (heightBudget : Q) :
  (exists allocation,
     calculateOptimalLineDistribution rows heightBudget = Ok allocation
     /\ Forall2 (fun row lines =>
                   lines <= Z.max (maxNaturalLines row) (minLines row))
                rows allocation)
  /\ (forall st,
        length (currentAllocation st) = length rows ->
        whileCondition rows heightBudget st = true ->
        exists o,
          loopBody rows heightBudget st = Ok o
          /\ (currentAllocation (flowState o) = currentAllocation st
              \/ exists rowIndex lines row,
                   currentAllocation st !! rowIndex = Some lines
                   /\ rows !! rowIndex = Some row
                   /\ lines < maxNaturalLines row
                   /\ currentAllocation (flowState o)
                      = <[rowIndex := lines + 1]> (currentAllocation st))).
Proof.
  split.
  - destruct (calculate_bounds rows heightBudget) as (allocation & Hrun & Hb).
    exists allocation. split; [exact Hrun |].
    eapply Forall2_impl; [exact Hb |]. intros row lines H. simpl in H. lia.
  - intros st Hlen Hcond.
    destruct (loopBody_grant rows heightBudget st Hlen Hcond) as (o & Ho & Hg & _).
    exists o. split; [exact Ho |].
    destruct Hg as [Ha _ | i lines row Hl Hr Hlt Ha _ _]; [left; exact Ha |].
    right. exists i, lines, row. auto.
Qed.

Lemma ceiling_or_floor_witness :
  let st := {| currentAllocation := [2; 8]; currentHeight := Some 360%Q;
               priorityIndex := 1; iterations := 1 |} in
  (exists allocation,
     calculateOptimalLineDistribution exB 450 = Ok allocation
     /\ Forall2 (fun row lines =>
                   lines <= Z.max (maxNaturalLines row) (minLines row))
                exB allocation)
  /\ length (currentAllocation st) = length exB
  /\ whileCondition exB 450 st = true
  /\ exists o,
       loopBody exB 450 st = Ok o
       /\ (currentAllocation (flowState o) = currentAllocation st
           \/ exists rowIndex lines row,
                currentAllocation st !! rowIndex = Some lines
                /\ exB !! rowIndex = Some row
                /\ lines < maxNaturalLines row
                /\ currentAllocation (flowState o)
                   = <[rowIndex := lines + 1]> (currentAllocation st)).
Proof.
  intros st. destruct (ceiling_or_floor exB 450) as [Hceiling Hbody].
  split; [exact Hceiling |].
  assert (Hlen : length (currentAllocation st) = length exB) by reflexivity.
  assert (Hcond : whileCondition exB 450 st = true) by (vm_compute; reflexivity).
  split; [exact Hlen |]. split; [exact Hcond |].
  exact (Hbody st Hlen Hcond).
Defined.



(** C6, as the specification states it, fails.  On the rows the measurement
    pass computes for [gridB], with lines of 100 units in the first row and
    of 20 units in the second, a budget of 450 gives the second row 12 lines
    and a budget of 460 gives it 8 lines, in exact arithmetic as in
    binary64.  And on [gridG], where every row has the line height 23.8,
    the code computes 480 for 11 and 7 lines and a number above 480 for 12
    and 6 lines: a budget of 480 gives the second row 7 lines and a budget
    of 481 gives it 6 lines. *)
Lemma monotonicity_counterexample :
  (aggregateRows (groupIntoRows gridB) = Ok exB
   /\ (450 <= 460)%Q
   /\ calculateOptimalLineDistribution exB 450 = Ok [2; 12]
   /\ calculateOptimalLineDistribution exB 460 = Ok [3; 8]
   /\ ~ Forall2 Z.le [2; 12] [3; 8])
  /\ (Binary64.aggregateRows (groupIntoRows gridB64) = Ok exB64
      /\ (450 <=? 460)%float = true
      /\ Binary64.calculateOptimalLineDistribution exB64 450 = Ok [2; 12]
      /\ Binary64.calculateOptimalLineDistribution exB64 460 = Ok [3; 8])
  /\ (Binary64.aggregateRows (groupIntoRows gridG) = Ok exG
      /\ (480 <=? 481)%float = true
      /\ Binary64.getCurrentHeight exG [11; 7] = Ok 480%float
      /\ (exists testHeight,
            Binary64.getCurrentHeight exG [12; 6] = Ok testHeight
            /\ (480 <? testHeight)%float = true)
      /\ Binary64.calculateOptimalLineDistribution exG 480 = Ok [11; 7]
      /\ Binary64.calculateOptimalLineDistribution exG 481 = Ok [12; 6]
      /\ ~ Forall2 Z.le [11; 7] [12; 6]).
Proof.
  split; [| split].
  - split; [vm_compute; reflexivity |].
    split; [vm_compute; discriminate |].
    split; [vm_compute; reflexivity |].
    split; [vm_compute; reflexivity |].
    intros H. inversion H as [|? ? ? ? _ H']; subst.
    inversion H' as [|? ? ? ? Hle _]; subst. lia.
  - repeat split; vm_compute; reflexivity.
  - split; [vm_compute; reflexivity |].
    split; [vm_compute; reflexivity |].
    split; [vm_compute; reflexivity |].
    split; [eexists; split; vm_compute; reflexivity |].
    split; [vm_compute; reflexivity |].
    split; [vm_compute; reflexivity |].
    intros H. inversion H as [|? ? ? ? _ H']; subst.
    inversion H' as [|? ? ? ? Hle _]; subst. lia.
Qed.

(** C6, amended (monotonicity): for budgets [b1 <= b2], no row gets fewer
    lines with [b2] than with [b1] in each of three cases: the height the
    code computes for the ideal allocation is at most [b2]; the height it
    computes for the all-minimum allocation is not below [b1]; or one more
    line makes the same computed height whichever row gets it, which rows of
    one line height give when their heights are computed without rounding.
    In the third case the two runs of the loop do the same until the smaller
    budget refuses a line, and then it refuses every line. *)
Theorem monotonicity (rows : list Binary64.RowTextData) (b1 b2 : float) :
  (b1 <=? b2)%float = true ->
  Binary64.heightWithin rows b2 (Binary64.idealAllocation rows)
  \/ ~ Binary64.heightBelow rows b1 (Binary64.minimumAllocation rows)
  \/ Binary64.sameHeightForAnyRow rows ->
  exists a1 a2,
    Binary64.calculateOptimalLineDistribution rows b1 = Ok a1
    /\ Binary64.calculateOptimalLineDistribution rows b2 = Ok a2
    /\ Forall2 Z.le a1 a2.
Proof. apply calculate_budgets. Qed.

Lemma monotonicity_witness :
  (350 <=? 370)%float = true
  /\ Binary64.sameHeightForAnyRow exH
  /\ exists a1 a2,
       Binary64.calculateOptimalLineDistribution exH 350 = Ok a1
       /\ Binary64.calculateOptimalLineDistribution exH 370 = Ok a2
       /\ Forall2 Z.le a1 a2.
Proof.
  assert (Hb : (350 <=? 370)%float = true) by (vm_compute; reflexivity).
  assert (Hsame : Binary64.sameHeightForAnyRow exH).
  { intros allocation i j li lj rowi rowj Hb' Hi Hri Hlti Hj Hrj Hltj.
    unfold Binary64.withinBounds, exH in Hb'.
    inversion Hb' as [|r0 x rs xs Hx Hb'']; subst.
    inversion Hb'' as [|r1 y rs' ys Hy Hb''']; subst.
    inversion Hb'''; subst. cbn in Hx, Hy.
    assert (Ex : x = 8 \/ x = 9) by lia.
    assert (Ey : y = 8 \/ y = 9 \/ y = 10) by lia.
    clear Hb' Hb'' Hb''' Hx Hy.
    destruct i as [|[|i]]; [| |discriminate];
      destruct j as [|[|j]]; try discriminate;
      cbn in Hi, Hj; injection Hi as <-; injection Hj as <-;
      destruct Ex as [-> | ->]; destruct Ey as [-> | [-> | ->]];
      vm_compute; reflexivity. }
  split; [exact Hb |]. split; [exact Hsame |].
  exact (monotonicity exH 350%float 370%float Hb (or_intror (or_intror Hsame))).
Defined.

(** C7: on the rows the measurement pass computes for [gridC], with the
    budget of 740, the loop ends with the pointer past the end of the
    priority order while the first row has 5 of its 10 natural lines, the
    height is below the budget and 6 of the 200 iterations are used.  The
    last run of the body finds the second row at its maximum and leaves by
    [continue], which passes the check for a wrap-around. *)
Theorem continue_passes_wrap_check :
  aggregateRows (groupIntoRows gridC) = Ok exC
  /\ length (rowPriorities exC) = 2%nat
  /\ map maxNaturalLines exC = [10; 9]
  /\ (forall h,
        loopBody exC 740
          {| currentAllocation := [5; 9]; currentHeight := h;
             priorityIndex := 1; iterations := 6 |}
        = Ok (Next {| currentAllocation := [5; 9]; currentHeight := h;
                      priorityIndex := 2; iterations := 6 |}))
  /\ hasNeedyRows exC (rowPriorities exC) [5; 9] = Ok true
  /\ (exists st,
        distribute exC 740 = Ok st
        /\ currentAllocation st = [5; 9]
        /\ priorityIndex st = 2%nat
        /\ iterations st = 6%nat
        /\ nltb (currentHeight st) 740 = true)
  /\ calculateOptimalLineDistribution exC 740 = Ok [5; 9].
Proof.
  split; [vm_compute; reflexivity |].
  split; [vm_compute; reflexivity |].
  split; [reflexivity |].
  split; [intros h; vm_compute; reflexivity |].
  split; [vm_compute; reflexivity |].
  split; [| vm_compute; reflexivity].
  eexists. split; [vm_compute; reflexivity |].
  repeat split.
Qed.

(** C8, as the specification states it, fails: for the row [cellsF], with
    line heights 14.4 and 20 and a padding of 5.2, the code computes a
    quotient just above 9 and a minimum of 10 lines, where
    [max 1 (ceil ((160 - avgFixedOverhead) / avgLineUnitHeight))] is 9, with
    the line heights and paddings taken as exact numbers as well as in
    decimals. *)
Lemma minimum_line_count_counterexample :
  (exists row,
     Binary64.aggregateRow cellsF = Ok row /\ Binary64.minLines row = 10)
  /\ (9 <? Binary64.minLinesQuotient cellsF)%float = true
  /\ (exists cellData,
        mapM exactCell cellsF = Some cellData
        /\ minLineCount cellData = Some 9)
  /\ minLineCount cellsFdecimal = Some 9.
Proof.
  split; [eexists; split; vm_compute; reflexivity |].
  split; [vm_compute; reflexivity |].
  split; [eexists; split; vm_compute; reflexivity |].
  vm_compute; reflexivity.
Qed.

(** C8, amended (minimum line count): a row gets
    [max 1 (ceil quotient)] as its minimum, where [quotient] is the binary64
    number the code computes as [(160 - avgPadding) / avgLineHeight], with
    the two means summed from the left and divided by the number of cells,
    every operation rounded; this holds whenever that quotient is a finite
    number.  And every row the measurement pass builds has a minimum of one
    line at least. *)
Theorem minimum_line_count (cellData : list Binary64.CellTextData) :
  (forall quotient : Q,
     Binary64.exact
       ((160 - Binary64.average Binary64.cellPadding cellData)
        / Binary64.average Binary64.lineHeight cellData)%float
     = Some quotient ->
     exists row,
       Binary64.aggregateRow cellData = Ok row
       /\ Binary64.cells row = cellData
       /\ Binary64.minLines row = Z.max 1 (Qceiling quotient))
  /\ (forall row,
        Binary64.aggregateRow cellData = Ok row -> 1 <= Binary64.minLines row).
Proof.
  split.
  - intros quotient Hquotient.
    destruct cellData as [|c cs]; [vm_compute in Hquotient; discriminate |].
    unfold Binary64.aggregateRow, Binary64.computeMinLines, Binary64.minLinesQuotient.
    rewrite Hquotient. simpl. eexists. repeat split.
  - intros row. destruct cellData as [|c cs]; [discriminate |].
    unfold Binary64.aggregateRow, Binary64.computeMinLines.
    destruct (Binary64.exact _) as [q|]; simpl.
    + intros [= <-]. simpl. lia.
    + destruct (_ <? 0)%float; simpl; [| discriminate].
      intros [= <-]. simpl. lia.
Qed.

Lemma minimum_line_count_witness :
  exists quotient : Q,
    Binary64.exact
      ((160 - Binary64.average Binary64.cellPadding cellsF)
       / Binary64.average Binary64.lineHeight cellsF)%float
    = Some quotient
    /\ exists row,
         Binary64.aggregateRow cellsF = Ok row
         /\ Binary64.cells row = cellsF
         /\ Binary64.minLines row = Z.max 1 (Qceiling quotient).
Proof.
  destruct (Binary64.exact
              ((160 - Binary64.average Binary64.cellPadding cellsF)
               / Binary64.average Binary64.lineHeight cellsF)%float)
    as [quotient|] eqn:Hquotient; [| vm_compute in Hquotient; discriminate].
  exists quotient. split; [reflexivity |].
  exact (proj1 (minimum_line_count cellsF) quotient Hquotient).
Defined.

(** C9 (the clamp of a cell): the allocator returns, the clamps are computed
    from its allocation without an error, and the clamp of every cell, in
    document order, has [min (allocation of its row) (naturalLines cell)]
    lines, that many line heights as its height, and never more lines than
    the cell has. *)
Theorem cell_clamp (rowTextData : list RowTextData) (budget : Q) :
  exists (allocation : list Z) (layout : GridLayout),
    calculateOptimalLineDistribution rowTextData budget = Ok allocation
    /\ applyAllocation rowTextData allocation = Ok layout
    /\ Forall2
         (fun config allocated =>
            cc_element config = content (snd allocated)
            /\ lineClamp config
               = Z.min (fst allocated) (naturalLines (snd allocated))
            /\ maxHeight config
               = (inject_Z (lineClamp config) * lineHeight (snd allocated))%Q
            /\ lineClamp config <= naturalLines (snd allocated))
         (configs layout) (cellsWithAllocation rowTextData allocation).
Proof.
  destruct (calculate_bounds rowTextData budget) as (allocation & Hrun & Hb).
  destruct (applyAllocation_configs rowTextData allocation)
    as (layout & Happly & Hconfigs).
  { symmetry. eapply Forall2_length. exact Hb. }
  exists allocation, layout. split; [exact Hrun |]. split; [exact Happly |].
  rewrite Hconfigs. apply Forall2_fmap_l, Forall_Forall2_diag, Forall_forall.
  intros [lines c] _. simpl. repeat split; lia.
Qed.

(** * Further properties of the code *)

(** ** Lines under one more line *)


(** ** The runs of the loop body, case by case *)

Section BodyCases.

Variable rows : list RowTextData.
Variable budget : Q.

Lemma loopBody_cases (st : LoopState) (o : flow) :
  whileCondition rows budget st = true ->
  loopBody rows budget st = Ok o ->
  exists item row lines,
    rowPriorities rows !! priorityIndex st = Some item
    /\ rows !! index item = Some row
    /\ currentAllocation st !! index item = Some lines
    /\ ((maxNaturalLines row <= lines
         /\ o = Next {| currentAllocation := currentAllocation st;
                        currentHeight := currentHeight st;
                        priorityIndex := S (priorityIndex st);
                        iterations := iterations st |})
        \/ (lines < maxNaturalLines row
            /\ exists st1,
                 iterations st1 = iterations st
                 /\ ((currentAllocation st1
                      = <[index item := lines + 1]> (currentAllocation st)
                      /\ getCurrentHeight rows (currentAllocation st1)
                         = Ok (currentHeight st1)
                      /\ nleb (currentHeight st1) budget = true
                      /\ (priorityIndex st <= priorityIndex st1)%nat
                      /\ (priorityIndex st1 = priorityIndex st
                          \/ priorityIndex st1 = S (priorityIndex st)
                             /\ maxNaturalLines row <= lines + 1))
                     \/ (currentAllocation st1 = currentAllocation st
                         /\ currentHeight st1 = currentHeight st
                         /\ priorityIndex st1 = S (priorityIndex st)
                         /\ exists testHeight,
                              getCurrentHeight rows
                                (<[index item := lines + 1]> (currentAllocation st))
                              = Ok testHeight
                              /\ nleb testHeight budget = false))
                 /\ (((priorityIndex st1 < length (rowPriorities rows))%nat
                      /\ o = Next {| currentAllocation := currentAllocation st1;
                                     currentHeight := currentHeight st1;
                                     priorityIndex := priorityIndex st1;
                                     iterations := S (iterations st1) |})
                     \/ ((length (rowPriorities rows) <= priorityIndex st1)%nat
                         /\ ((hasNeedyRows rows (rowPriorities rows)
                                (currentAllocation st1) = Ok true
                              /\ o = Next {| currentAllocation := currentAllocation st1;
                                             currentHeight := currentHeight st1;
                                             priorityIndex := 0;
                                             iterations := S (iterations st1) |})
                             \/ (hasNeedyRows rows (rowPriorities rows)
                                   (currentAllocation st1) = Ok false
                                 /\ o = Break {| currentAllocation := currentAllocation st1;
                                                 currentHeight := currentHeight st1;
                                                 priorityIndex := 0;
                                                 iterations := iterations st1 |})))))).
Proof.
  intros Hcond Hrun. unfold loopBody in Hrun.
  destruct (get (rowPriorities rows) (priorityIndex st) Undefined) as [item|] eqn:Hitem;
    [| discriminate].
  simpl in Hrun.
  destruct (get rows (index item) TypeError) as [row|] eqn:Hrow; [| discriminate].
  simpl in Hrun.
  destruct (get (currentAllocation st) (index item) Undefined) as [lines|] eqn:Hlines;
    [| discriminate].
  simpl in Hrun. apply get_Ok in Hitem, Hrow, Hlines.
  exists item, row, lines.
  split; [exact Hitem |]. split; [exact Hrow |]. split; [exact Hlines |].
  destruct (maxNaturalLines row <=? lines) eqn:Hmax.
  { apply Z.leb_le in Hmax. injection Hrun as <-. left. auto. }
  apply Z.leb_gt in Hmax. right. split; [exact Hmax |].
  destruct (getCurrentHeight rows _) as [testHeight|] eqn:Htest; [| discriminate].
  simpl in Hrun.
  match type of Hrun with
  | context [hasNeedyRows _ _ (currentAllocation ?s)] => set (st1 := s) in *
  end.
  exists st1. split.
  { subst st1. destruct (nleb testHeight budget); reflexivity. }
  split.
  { subst st1. destruct (nleb testHeight budget) eqn:Hfit; cbn.
    - left. split; [reflexivity |]. split; [exact Htest |].
      split; [exact Hfit |].
      destruct (maxNaturalLines row <=? lines + 1) eqn:Hfull.
      + apply Z.leb_le in Hfull. split; [lia |]. right. auto.
      + split; [lia |]. left. reflexivity.
    - right. split; [reflexivity |]. split; [reflexivity |].
      split; [reflexivity |]. exists testHeight. auto. }
  clearbody st1.
  destruct (length (rowPriorities rows) <=? priorityIndex st1)%nat eqn:Hend.
  - apply Nat.leb_le in Hend. right. split; [exact Hend |].
    destruct (hasNeedyRows rows (rowPriorities rows) (currentAllocation st1))
      as [[|]|]; simpl in Hrun; [| | discriminate]; injection Hrun as <-; auto.
  - apply Nat.leb_gt in Hend. injection Hrun as <-. left. auto.
Qed.


Lemma wellFormedState_length (st : LoopState) :
  wellFormedState rows st -> length (currentAllocation st) = length rows.
Proof. intros [_ H]. symmetry. eapply Forall2_length. exact H. Qed.

Lemma wellFormedState_step (st : LoopState) (o : flow) :
  wellFormedState rows st ->
  whileCondition rows budget st = true ->
  loopBody rows budget st = Ok o ->
  wellFormedState rows (flowState o).
Proof.
  intros Hwf Hcond Hrun.
  destruct (loopBody_grant rows budget st (wellFormedState_length st Hwf) Hcond)
    as (o' & Hrun' & Hgrant & _).
  rewrite Hrun in Hrun'. injection Hrun' as <-.
  destruct Hwf as [Hheight Hbounds].
  destruct Hgrant as [Ha Hh | i lines row Hl Hr Hlt Ha Hh Hfit]; split.
  - rewrite Ha, Hh. exact Hheight.
  - rewrite Ha. exact Hbounds.
  - exact Hh.
  - rewrite Ha. rewrite <- (list_insert_id rows i row Hr).
    apply Forall2_insert; [exact Hbounds |].
    pose proof (Forall2_lookup_lr _ _ _ _ _ _ Hbounds Hr Hl) as Hb. simpl in Hb. lia.
Qed.

Lemma wellFormedState_start (h : number) :
  getCurrentHeight rows (minimumAllocation rows) = Ok h ->
  wellFormedState rows
    {| currentAllocation := minimumAllocation rows; currentHeight := h;
       priorityIndex := 0; iterations := 0 |}.
Proof.
  intros Hh. split; [exact Hh |]. cbn [currentAllocation].
  unfold minimumAllocation. apply Forall2_fmap_r, Forall_Forall2_diag.
  apply Forall_forall. intros row _. simpl. lia.
Qed.

Lemma reaches_wellFormed (st : LoopState) :
  reaches rows budget st -> wellFormedState rows st.
Proof.
  induction 1 as [h Hh | st st' _ IH Hcond Hrun].
  - apply wellFormedState_start. exact Hh.
  - exact (wellFormedState_step st (Next st') IH Hcond Hrun).
Qed.

(** Every row that can still grow is in the priority order. *)
Lemma rowPriorities_complete (i : nat) (row : RowTextData) :
  rows !! i = Some row ->
  minLines row < maxNaturalLines row ->
  exists item, item ∈ rowPriorities rows /\ index item = i.
Proof.
  intros Hrow Hneed.
  exists {| index := i;
            remainingNeed := Z.max 0 (maxNaturalLines row - minLines row);
            priority := maxNaturalLines row - minLines row |}.
  split; [| reflexivity].
  unfold rowPriorities. rewrite sortByPriority_perm.
  rewrite list_elem_of_In, filter_In, <- list_elem_of_In. split.
  - apply elem_of_lookup_imap. exists i, row. auto.
  - simpl. apply Z.ltb_lt. lia.
Qed.

(** When no row of the priority order needs lines, the allocation is the
    ideal one. *)
Lemma hasNeedyRows_false_ideal (allocation : list Z) :
  Forall2 (fun row lines =>
             minLines row <= lines
             <= Z.max (maxNaturalLines row) (minLines row))
          rows allocation ->
  hasNeedyRows rows (rowPriorities rows) allocation = Ok false ->
  allocation = idealAllocation rows.
Proof.
  intros Hbounds Hneedy. apply hasNeedyRows_false in Hneedy.
  rewrite Forall_forall in Hneedy.
  apply (list_eq_same_length _ _ (length rows)).
  - apply length_idealAllocation.
  - symmetry. eapply Forall2_length. exact Hbounds.
  - intros i lines ideal _ Hlines Hideal.
    unfold idealAllocation in Hideal. rewrite list_lookup_fmap in Hideal.
    destruct (rows !! i) as [row|] eqn:Hrow; [| discriminate].
    injection Hideal as <-.
    pose proof (Forall2_lookup_lr _ _ _ _ _ _ Hbounds Hrow Hlines) as Hb.
    simpl in Hb.
    destruct (Z_lt_le_dec (minLines row) (maxNaturalLines row)) as [Hneed | Hfull];
      [| lia].
    destruct (rowPriorities_complete i row Hrow Hneed) as (item & Hin & <-).
    destruct (Hneedy item Hin) as (lines' & row' & Hl' & Hr' & Hmax).
    rewrite Hlines in Hl'. rewrite Hrow in Hr'.
    injection Hl' as <-. injection Hr' as <-. lia.
Qed.

End BodyCases.

(** ** The iteration cap and the exit through [break] *)

Lemma number_lt_le (a : number) (b : Q) : number_lt a b -> number_le a b.
Proof. destruct a; simpl; [apply Qlt_le_weak | tauto]. Qed.

Section CapAndBreak.

Variable rows : list RowTextData.
Variable budget : Q.



Lemma reaches_no_break (st : LoopState) :
  ~ number_le (sumRowHeights rows (idealAllocation rows)) budget ->
  reaches rows budget st ->
  whileCondition rows budget st = true ->
  exists st', loopBody rows budget st = Ok (Next st').
Proof.
  intros Hideal Hreach Hcond.
  pose proof (reaches_wellFormed rows budget st Hreach) as Hwf.
  destruct (loopBody_grant rows budget st (wellFormedState_length rows st Hwf) Hcond)
    as (o & Hrun & _).
  destruct o as [st'|st']; [exists st'; exact Hrun |]. exfalso.
  pose proof (wellFormedState_step rows budget st (Break st') Hwf Hcond Hrun)
    as [Hheight Hbounds].
  pose proof (loopBody_wrap rows budget st (Break st') Hcond Hrun) as Hneedy.
  simpl in Hheight, Hbounds, Hneedy.
  assert (Hle : number_le (currentHeight st') budget).
  { destruct (loopBody_cases rows budget st (Break st') Hcond Hrun)
      as (item & row & lines & _ & _ & _
          & [[_ E] | (_ & st1 & _ & Hst1 & Hwrap)]); [discriminate |].
    destruct Hwrap as [[_ E] | [_ [[_ E] | [_ E]]]]; [discriminate | discriminate |].
    injection E as ->. cbn [currentHeight].
    destruct Hst1 as [(_ & _ & Hfit & _) | (_ & Hh & _)].
    - apply nleb_le. exact Hfit.
    - rewrite Hh. apply number_lt_le, nltb_lt.
      unfold whileCondition in Hcond. apply andb_true_iff in Hcond as [Hcond _].
      apply andb_true_iff in Hcond as [Hcond _]. exact Hcond. }
  apply Hideal.
  rewrite (hasNeedyRows_false_ideal rows _ Hbounds Hneedy) in Hheight.
  eapply number_le_eq; [| exact Hle]. apply getCurrentHeight_sum. exact Hheight.
Qed.

End CapAndBreak.

(** ** The height of a grid with a row without cells *)

Lemma sumRowHeights_NaN (rows : list RowTextData) :
  forall allocation : list Z,
    length allocation = length rows ->
    (sumRowHeights rows allocation = NaN
     <-> Exists (fun row => cells row = []) rows).
Proof.
  induction rows as [|row rows IH]; intros [|lines allocation] Hlen;
    simpl in *; try discriminate.
  - split; [discriminate | intros H; inversion H].
  - specialize (IH allocation ltac:(lia)).
    unfold rowHeight, avgLineUnitHeight, avgFixedOverhead, arithmeticMean.
    destruct (cells row) as [|c cs] eqn:Hcells; simpl.
    + split; [intros _; apply Exists_cons_hd; exact Hcells | reflexivity].
    + destruct (sumRowHeights rows allocation) as [s|]; simpl.
      * split; [discriminate |]. intros H.
        apply Exists_cons in H as [H | H]; [congruence |].
        apply IH in H. discriminate.
      * split; [| reflexivity]. intros _. apply Exists_cons_tl, IH. reflexivity.
Qed.

(** X2 (rows that cannot grow): a row whose natural maximum is not above its
    minimum gets exactly its minimum, whatever the budget and the other
    rows. *)
Theorem short_rows_get_minimum (rows : list RowTextData) (budget : Q) :
  exists allocation,
    calculateOptimalLineDistribution rows budget = Ok allocation
    /\ Forall2 (fun row lines =>
                  maxNaturalLines row <= minLines row -> lines = minLines row)
               rows allocation.
Proof.
  destruct (calculate_bounds rows budget) as (allocation & Hrun & Hb).
  exists allocation. split; [exact Hrun |].
  eapply Forall2_impl; [exact Hb |]. intros row lines [H1 H2] Hshort. lia.
Qed.

Lemma short_rows_get_minimum_witness :
  exists allocation,
    calculateOptimalLineDistribution exA 100 = Ok allocation
    /\ Forall2 (fun row lines =>
                  maxNaturalLines row <= minLines row -> lines = minLines row)
               exA allocation.
Proof. exact (short_rows_get_minimum exA 100). Defined.



(** X5 (the exit through [break] is never taken): when the ideal allocation
    does not fit, every run of the loop body, from every state the loop goes
    through, ends at the end of the body or at [continue], never at
    [break]. *)
Theorem break_is_never_taken (rows : list RowTextData) (budget : Q)
    (st : LoopState) :
  ~ number_le (sumRowHeights rows (idealAllocation rows)) budget ->
  reaches rows budget st ->
  whileCondition rows budget st = true ->
  exists st', loopBody rows budget st = Ok (Next st').
Proof. apply reaches_no_break. Qed.

Lemma break_is_never_taken_witness :
  exists h,
    let st := {| currentAllocation := minimumAllocation exB; currentHeight := h;
                 priorityIndex := 0; iterations := 0 |} in
    ~ number_le (sumRowHeights exB (idealAllocation exB)) 450
    /\ reaches exB 450 st
    /\ whileCondition exB 450 st = true
    /\ exists st', loopBody exB 450 st = Ok (Next st').
Proof.
  destruct (getCurrentHeight exB (minimumAllocation exB)) as [h|] eqn:Hh;
    [| vm_compute in Hh; discriminate].
  exists h. intros st.
  assert (H : ~ number_le (sumRowHeights exB (idealAllocation exB)) 450)
    by (vm_compute; intros H; apply H; reflexivity).
  assert (Hreach : reaches exB 450 st) by (apply reaches_start; exact Hh).
  assert (Hcond : whileCondition exB 450 st = true)
    by (vm_compute in Hh; injection Hh as <-; vm_compute; reflexivity).
  split; [exact H |]. split; [exact Hreach |]. split; [exact Hcond |].
  exact (break_is_never_taken exB 450 st H Hreach Hcond).
Defined.

(** X6 (wrap-around): a run of the loop body that counts an iteration leaves
    the pointer inside the priority order; only a run that leaves by
    [continue] can move it past the end. *)
Theorem counted_run_keeps_pointer_inside (rows : list RowTextData) (budget : Q)
    (st st' : LoopState) :
  whileCondition rows budget st = true ->
  loopBody rows budget st = Ok (Next st') ->
  (iterations st' = S (iterations st)
   /\ (priorityIndex st' < length (rowPriorities rows))%nat)
  \/ (iterations st' = iterations st
      /\ priorityIndex st' = S (priorityIndex st)
      /\ currentAllocation st' = currentAllocation st).
Proof.
  intros Hcond Hrun.
  destruct (loopBody_wrap rows budget st (Next st') Hcond Hrun) as [H | H];
    [right | left]; exact H.
Qed.

Lemma counted_run_keeps_pointer_inside_witness :
  let st := {| currentAllocation := [2; 8]; currentHeight := Some 360%Q;
               priorityIndex := 1; iterations := 1 |} in
  exists st',
    whileCondition exB 450 st = true
    /\ loopBody exB 450 st = Ok (Next st')
    /\ ((iterations st' = S (iterations st)
         /\ (priorityIndex st' < length (rowPriorities exB))%nat)
        \/ (iterations st' = iterations st
            /\ priorityIndex st' = S (priorityIndex st)
            /\ currentAllocation st' = currentAllocation st)).
Proof.
  intros st.
  destruct (loopBody exB 450 st) as [[st'|st']|e] eqn:Hrun;
    [| vm_compute in Hrun; discriminate | vm_compute in Hrun; discriminate].
  exists st'.
  assert (Hcond : whileCondition exB 450 st = true) by (vm_compute; reflexivity).
  split; [exact Hcond |]. split; [reflexivity |].
  exact (counted_run_keeps_pointer_inside exB 450 st st' Hcond Hrun).
Defined.

(** X7 (the invariant of the loop): in every state the loop goes through,
    [currentHeight] is the height of [currentAllocation], and every row has
    at least its minimum and at most the larger of its minimum and its
    natural maximum. *)
Theorem loop_keeps_height_and_bounds (rows : list RowTextData) (budget : Q)
    (st : LoopState) :
  reaches rows budget st ->
  getCurrentHeight rows (currentAllocation st) = Ok (currentHeight st)
  /\ Forall2 (fun row lines =>
                minLines row <= lines
                <= Z.max (maxNaturalLines row) (minLines row))
             rows (currentAllocation st).
Proof. apply reaches_wellFormed. Qed.

Lemma loop_keeps_height_and_bounds_witness :
  exists h,
    let st := {| currentAllocation := minimumAllocation exB; currentHeight := h;
                 priorityIndex := 0; iterations := 0 |} in
    reaches exB 450 st
    /\ getCurrentHeight exB (currentAllocation st) = Ok (currentHeight st)
    /\ Forall2 (fun row lines =>
                  minLines row <= lines
                  <= Z.max (maxNaturalLines row) (minLines row))
               exB (currentAllocation st).
Proof.
  destruct (getCurrentHeight exB (minimumAllocation exB)) as [h|] eqn:Hh;
    [| vm_compute in Hh; discriminate].
  exists h. intros st.
  assert (Hreach : reaches exB 450 st) by (apply reaches_start; exact Hh).
  split; [exact Hreach |].
  exact (loop_keeps_height_and_bounds exB 450 st Hreach).
Defined.

(** ** The rows of the grid *)

Lemma groupIntoRows_slice {A : Type} (gridItems : list A) :
  length (groupIntoRows gridItems) = Nat.div2 (length gridItems + 1)
  /\ forall k : nat,
       (2 * k < length gridItems)%nat ->
       groupIntoRows gridItems !! k = Some (take 2 (drop (2 * k) gridItems)).
Proof.
  assert (H : forall l : list A,
             (length (groupIntoRows l) = Nat.div2 (length l + 1)
              /\ forall k, (2 * k < length l)%nat ->
                           groupIntoRows l !! k = Some (take 2 (drop (2 * k) l)))
             /\ forall a,
                 length (groupIntoRows (a :: l)) = Nat.div2 (length (a :: l) + 1)
                 /\ forall k, (2 * k < length (a :: l))%nat ->
                              groupIntoRows (a :: l) !! k
                              = Some (take 2 (drop (2 * k) (a :: l)))).
  { induction l as [|b l [[IHlen IHrows] IHcons]].
    - split; [split; [reflexivity | simpl; lia] |].
      intros a. split; [reflexivity |].
      intros [|k] Hk; [reflexivity | simpl in Hk; lia].
    - split; [apply IHcons |].
      intros a. split.
      + cbn [groupIntoRows length]. rewrite IHlen.
        rewrite !Nat.add_1_r. reflexivity.
      + intros [|k] Hk; [reflexivity |].
        cbn [groupIntoRows]. cbn [length] in Hk.
        replace (2 * S k)%nat with (S (S (2 * k))) by lia.
        cbn [drop]. rewrite <- IHrows by lia. reflexivity. }
  apply H.
Qed.

(** X8 (the rows of the grid): the grouping cuts the grid items into
    consecutive rows, row [k] being [gridItems.slice(2k, 2k + 2)]; there are
    [ceil(n / 2)] rows, none of them empty, and together they are the grid
    items in their order. *)
Theorem rows_are_slices_of_two {A : Type} (gridItems : list A) :
  concat (groupIntoRows gridItems) = gridItems
  /\ length (groupIntoRows gridItems) = Nat.div2 (length gridItems + 1)
  /\ Forall (fun row => row <> [] /\ (length row <= 2)%nat) (groupIntoRows gridItems)
  /\ forall k : nat,
       (2 * k < length gridItems)%nat ->
       groupIntoRows gridItems !! k = Some (take 2 (drop (2 * k) gridItems)).
Proof.
  destruct (groupIntoRows_rows gridItems) as [Hrows Hcat].
  destruct (groupIntoRows_slice gridItems) as [Hlen Hslice].
  auto.
Qed.

Lemma rows_are_slices_of_two_witness :
  concat (groupIntoRows [1; 2; 3]%nat) = [1; 2; 3]%nat
  /\ length (groupIntoRows [1; 2; 3]%nat) = Nat.div2 (length [1; 2; 3]%nat + 1)
  /\ Forall (fun row => row <> [] /\ (length row <= 2)%nat)
            (groupIntoRows [1; 2; 3]%nat)
  /\ forall k : nat,
       (2 * k < length [1; 2; 3]%nat)%nat ->
       groupIntoRows [1; 2; 3]%nat !! k
       = Some (take 2 (drop (2 * k) [1; 2; 3]%nat)).
Proof. exact (rows_are_slices_of_two [1; 2; 3]%nat). Defined.

(** ** The order of the priority list *)

Lemma insertByPriority_served (a : PriorityItem) (l : list PriorityItem) :
  StronglySorted servedBefore l ->
  Forall (fun b => (index a < index b)%nat) l ->
  StronglySorted servedBefore (insertByPriority a l).
Proof.
  induction 1 as [|b l Hl IH Hb]; intros Hlater; simpl.
  - repeat constructor.
  - inversion Hlater as [|? ? Hab Hal]; subst.
    destruct (priority b - priority a <=? 0) eqn:Hcmp.
    + apply Z.leb_le in Hcmp. constructor; [constructor; assumption |].
      constructor.
      * unfold servedBefore. lia.
      * rewrite Forall_forall in Hb, Hal |- *. intros x Hx.
        specialize (Hb x Hx). specialize (Hal x Hx).
        unfold servedBefore in *. lia.
    + apply Z.leb_gt in Hcmp. constructor; [apply IH; exact Hal |].
      rewrite insertByPriority_perm. constructor; [| exact Hb].
      unfold servedBefore. lia.
Qed.

Lemma sortByPriority_served (l : list PriorityItem) :
  StronglySorted (fun a b => (index a < index b)%nat) l ->
  StronglySorted servedBefore (sortByPriority l).
Proof.
  induction 1 as [|a l Hl IH Ha]; [constructor |].
  change (sortByPriority (a :: l)) with (insertByPriority a (sortByPriority l)).
  apply insertByPriority_served; [exact IH |].
  rewrite sortByPriority_perm. exact Ha.
Qed.

Lemma filter_StronglySorted {A : Type} (R : A -> A -> Prop) (f : A -> bool)
    (l : list A) :
  StronglySorted R l -> StronglySorted R (List.filter f l).
Proof.
  induction 1 as [|a l Hl IH Ha]; simpl; [constructor |].
  destruct (f a); [| exact IH]. constructor; [exact IH |].
  rewrite Forall_forall in Ha |- *. intros x Hx. apply Ha.
  apply list_elem_of_In in Hx. apply filter_In in Hx as [Hx _].
  apply list_elem_of_In. exact Hx.
Qed.

Lemma imap_index_sorted (l : list RowTextData) :
  forall (n : nat) (f : nat -> RowTextData -> PriorityItem),
    (forall i row, index (f i row) = (n + i)%nat) ->
    StronglySorted (fun a b => (index a < index b)%nat) (imap f l).
Proof.
  induction l as [|row l IH]; intros n f Hf; simpl; [constructor |].
  constructor.
  - apply (IH (S n)). intros i r. unfold compose. rewrite Hf. lia.
  - apply Forall_forall. intros x Hx.
    apply elem_of_lookup_imap in Hx as (i & r & -> & _).
    unfold compose. rewrite !Hf. lia.
Qed.

(** X9 (the priority order): the priority list holds exactly the rows whose
    natural maximum is above their minimum, each with that difference as its
    need, the larger need first and, among rows of one need, the earlier row
    first. *)
Theorem priority_order (rows : list RowTextData) :
  StronglySorted servedBefore (rowPriorities rows)
  /\ forall item : PriorityItem,
       In item (rowPriorities rows)
       <-> exists row,
             rows !! index item = Some row
             /\ minLines row < maxNaturalLines row
             /\ remainingNeed item = maxNaturalLines row - minLines row
             /\ priority item = maxNaturalLines row - minLines row.
Proof.
  split.
  - unfold rowPriorities. apply sortByPriority_served, filter_StronglySorted.
    apply (imap_index_sorted rows 0). reflexivity.
  - intros item. rewrite <- list_elem_of_In. unfold rowPriorities.
    rewrite sortByPriority_perm, list_elem_of_In, filter_In, <- list_elem_of_In.
    rewrite elem_of_lookup_imap. split.
    + intros [(i & row & -> & Hrow) Hneed]. simpl in *.
      apply Z.ltb_lt in Hneed. exists row. repeat split; [exact Hrow | lia | lia].
    + intros (row & Hrow & Hneed & Hrem & Hprio). split.
      * exists (index item), row. split; [| exact Hrow].
        destruct item as [i r p]. simpl in *. subst.
        f_equal. lia.
      * apply Z.ltb_lt. lia.
Qed.

Lemma priority_order_witness :
  StronglySorted servedBefore (rowPriorities exB)
  /\ forall item : PriorityItem,
       In item (rowPriorities exB)
       <-> exists row,
             exB !! index item = Some row
             /\ minLines row < maxNaturalLines row
             /\ remainingNeed item = maxNaturalLines row - minLines row
             /\ priority item = maxNaturalLines row - minLines row.
Proof. exact (priority_order exB). Defined.

(** ** The minimum of a row *)

Lemma aggregateRow_Ok (cellData : list CellTextData) (row : RowTextData) :
  aggregateRow cellData = Ok row ->
  cells row = cellData /\ cellData <> [] /\ 1 <= minLines row.
Proof.
  unfold aggregateRow. destruct cellData as [|c cs]; [discriminate |].
  destruct (computeMinLines _ _) as [m|] eqn:Hm; [| discriminate].
  simpl. intros [= <-]. cbn [cells minLines].
  split; [reflexivity |]. split; [discriminate |].
  unfold computeMinLines in Hm.
  destruct (average cellPadding (c :: cs)) as [p|]; [| discriminate].
  destruct (average lineHeight (c :: cs)) as [h|]; [| discriminate].
  destruct (Qeq_bool h 0).
  - destruct (negb (Qle_bool 0 (160 - p))); [| discriminate].
    injection Hm as <-. lia.
  - injection Hm as <-. lia.
Qed.

Lemma aggregateRows_Ok (rows : list (list CellTextData)) :
  forall rowTextData,
    aggregateRows rows = Ok rowTextData ->
    map cells rowTextData = rows
    /\ Forall (fun row => 1 <= minLines row) rowTextData.
Proof.
  induction rows as [|cellData rows IH]; intros rowTextData; simpl.
  - intros [= <-]. split; [reflexivity | constructor].
  - destruct (aggregateRow cellData) as [row|] eqn:Hrow; [| discriminate].
    simpl. destruct (aggregateRows rows) as [rest|]; [| discriminate].
    simpl. intros [= <-].
    destruct (aggregateRow_Ok cellData row Hrow) as (Hcells & _ & Hmin).
    destruct (IH rest eq_refl) as [IHcells IHmin].
    split; [simpl; rewrite Hcells, IHcells; reflexivity |].
    constructor; assumption.
Qed.

(** ** The clamps and the row heights of the whole pass *)

Lemma clampRows_heights (rows : list RowTextData) (allocation : list Z) :
  forall (rowIndex : nat) (layout layout' : GridLayout),
    clampRows rows rowIndex allocation layout = Ok layout' ->
    length (actualRowHeights layout')
    = (length (actualRowHeights layout) + length rows)%nat.
Proof.
  induction rows as [|row rows IH]; intros rowIndex layout layout'; simpl.
  - intros [= <-]. lia.
  - destruct (get allocation rowIndex Undefined) as [lines|]; [| discriminate].
    simpl. intros Hrun. apply IH in Hrun. rewrite Hrun.
    cbn [actualRowHeights]. rewrite length_app. simpl. lia.
Qed.

Lemma cellsWithAllocation_cells (rows : list RowTextData) :
  forall allocation : list Z,
    length allocation = length rows ->
    map snd (cellsWithAllocation rows allocation) = concat (map cells rows).
Proof.
  unfold cellsWithAllocation.
  induction rows as [|row rows IH]; intros [|lines allocation] Hlen;
    simpl in *; try discriminate; [reflexivity |].
  rewrite map_app, IH by lia. f_equal. rewrite map_map. simpl. apply map_id.
Qed.

Lemma cellsWithAllocation_lines (P : Z -> Prop) (rows : list RowTextData)
    (allocation : list Z) :
  Forall2 (fun _ lines => P lines) rows allocation ->
  Forall (fun allocated => P (fst allocated)) (cellsWithAllocation rows allocation).
Proof.
  unfold cellsWithAllocation.
  induction 1 as [|row lines rows allocation Hl _ IH]; simpl; [constructor |].
  apply Forall_app. split; [| exact IH].
  apply Forall_forall. intros x Hx. apply list_elem_of_In, in_map_iff in Hx.
  destruct Hx as (c & <- & _). exact Hl.
Qed.

(** X11 (the whole pass): on grid items with positive line heights and one
    natural line at least, the pass returns a clamp for every grid item, in
    document order, of one line at least and of the natural lines of the cell
    at most, with that many line heights as its height, and a height for
    every row of two. *)
Theorem pass_clamps_every_cell (gridItems : list CellTextData) :
  Forall (fun c => (0 < lineHeight c)%Q /\ 1 <= naturalLines c) gridItems ->
  exists layout,
    calculateGridWithLineClamp gridItems = Ok layout
    /\ Forall2
         (fun config c =>
            cc_element config = content c
            /\ 1 <= lineClamp config <= naturalLines c
            /\ maxHeight config = (inject_Z (lineClamp config) * lineHeight c)%Q)
         (configs layout) gridItems
    /\ length (actualRowHeights layout) = Nat.div2 (length gridItems + 1).
Proof.
  intros Hitems.
  assert (Hpos : Forall (fun c => (0 < lineHeight c)%Q) gridItems).
  { eapply Forall_impl; [exact Hitems |]. intros c [H _]. exact H. }
  destruct (calculateGridWithLineClamp_configs gridItems Hpos)
    as (rowTextData & allocation & layout & Hagg & Hrun & Hpass & Hconfigs & _).
  destruct (aggregateRows_Ok _ _ Hagg) as [Hcells Hmin].
  destruct (calculate_bounds rowTextData 740) as (allocation' & Hrun' & Hb).
  rewrite Hrun in Hrun'. injection Hrun' as <-.
  exists layout. split; [exact Hpass |]. split.
  - assert (Hsnd : map snd (cellsWithAllocation rowTextData allocation) = gridItems).
    { rewrite cellsWithAllocation_cells
        by (symmetry; eapply Forall2_length; exact Hb).
      rewrite Hcells. apply groupIntoRows_rows. }
    rewrite Hconfigs. rewrite <- Hsnd.
    apply Forall2_fmap, Forall_Forall2_diag.
    assert (Hone : Forall (fun allocated : Z * CellTextData => 1 <= fst allocated)
                          (cellsWithAllocation rowTextData allocation)).
    { apply cellsWithAllocation_lines.
      rewrite Forall_forall in Hmin.
      apply Forall2_same_length_lookup_2; [eapply Forall2_length; exact Hb |].
      intros i row lines Hrow Hlines.
      pose proof (Forall2_lookup_lr _ _ _ _ _ _ Hb Hrow Hlines) as Hbi. simpl in Hbi.
      specialize (Hmin row (list_elem_of_lookup_2 _ _ _ Hrow)). lia. }
    rewrite <- Hsnd in Hitems. apply Forall_fmap in Hitems.
    rewrite Forall_forall in Hone, Hitems |- *.
    intros allocated Hin. specialize (Hone allocated Hin).
    destruct (Hitems allocated Hin) as [_ Hnat]. simpl in *.
    repeat split; lia.
  - unfold calculateGridWithLineClamp in Hpass. rewrite Hagg in Hpass.
    simpl in Hpass. rewrite Hrun in Hpass. simpl in Hpass.
    apply clampRows_heights in Hpass. rewrite Hpass. simpl.
    rewrite <- (proj1 (groupIntoRows_slice gridItems)), <- Hcells.
    apply eq_sym, length_map.
Qed.

Lemma pass_clamps_every_cell_witness :
  Forall (fun c => (0 < lineHeight c)%Q /\ 1 <= naturalLines c) gridB
  /\ exists layout,
       calculateGridWithLineClamp gridB = Ok layout
       /\ Forall2
            (fun config c =>
               cc_element config = content c
               /\ 1 <= lineClamp config <= naturalLines c
               /\ maxHeight config = (inject_Z (lineClamp config) * lineHeight c)%Q)
            (configs layout) gridB
       /\ length (actualRowHeights layout) = Nat.div2 (length gridB + 1).
Proof.
  assert (H : Forall (fun c => (0 < lineHeight c)%Q /\ 1 <= naturalLines c) gridB)
    by (repeat constructor; vm_compute; congruence).
  split; [exact H | exact (pass_clamps_every_cell gridB H)].
Defined.

(** ** A budget the minimums use up *)



(** X15 (a row without cells): when some row has no cells, every height is
    [NaN], no comparison with the budget holds, and the allocator returns the
    all-minimum allocation for every budget. *)
Theorem row_without_cells_returns_minimum (rows : list RowTextData) (budget : Q) :
  Exists (fun row => cells row = []) rows ->
  calculateOptimalLineDistribution rows budget = Ok (map minLines rows).
Proof.
  intros Hempty. apply calculate_minimum.
  - rewrite (proj2 (sumRowHeights_NaN rows (idealAllocation rows)
                      (length_idealAllocation rows)) Hempty).
    simpl. tauto.
  - rewrite (proj2 (sumRowHeights_NaN rows (minimumAllocation rows)
                      (length_minimumAllocation rows)) Hempty).
    simpl. tauto.
Qed.

Lemma row_without_cells_returns_minimum_witness :
  let rows := [ {| cells := []; maxNaturalLines := 5; minLines := 2 |} ] in
  Exists (fun row => cells row = []) rows
  /\ calculateOptimalLineDistribution rows 740 = Ok (map minLines rows).
Proof.
  intros rows.
  assert (H : Exists (fun row => cells row = []) rows)
    by (apply Exists_cons_hd; reflexivity).
  split; [exact H | exact (row_without_cells_returns_minimum rows 740 H)].
Defined.


(** ** The bounds on binary64 numbers *)

(** X16 (the bounds on binary64 numbers): with its heights computed in
    binary64 the allocator returns for every grid and every budget, an
    allocation with one entry per row, at least the minimum of the row and
    at most the larger of its minimum and its natural maximum. *)
Theorem binary64_allocation_within_bounds
    (rows : list Binary64.RowTextData) (budget : float) :
  exists allocation,
    Binary64.calculateOptimalLineDistribution rows budget = Ok allocation
    /\ Forall2 (fun row lines =>
                  Binary64.minLines row <= lines
                  <= Z.max (Binary64.maxNaturalLines row) (Binary64.minLines row))
               rows allocation.
Proof. apply calculate_withinBounds. Qed.

(** ** One row to grow *)

(** X17 (one row to grow): when at most one row has a natural maximum above
    its minimum, no row gets fewer lines with a larger budget, whatever the
    heights are rounded to: the loop gives lines to that row until one is
    refused, and a line the smaller budget has room for fits the larger. *)
Theorem one_growing_row_is_monotone
    (rows : list Binary64.RowTextData) (b1 b2 : float) :
  (b1 <=? b2)%float = true ->
  (forall (i j : nat) (rowi rowj : Binary64.RowTextData),
     rows !! i = Some rowi -> rows !! j = Some rowj ->
     Binary64.minLines rowi < Binary64.maxNaturalLines rowi ->
     Binary64.minLines rowj < Binary64.maxNaturalLines rowj ->
     i = j) ->
  exists a1 a2,
    Binary64.calculateOptimalLineDistribution rows b1 = Ok a1
    /\ Binary64.calculateOptimalLineDistribution rows b2 = Ok a2
    /\ Forall2 Z.le a1 a2.
Proof.
  intros Hbudgets Hone. apply calculate_budgets; [exact Hbudgets |].
  right. right.
  intros allocation i j li lj rowi rowj Hbounds Hi Hrowi Hlti Hj Hrowj Hltj.
  pose proof (Forall2_lookup_lr _ _ _ _ _ _ Hbounds Hrowi Hi) as Hbi.
  pose proof (Forall2_lookup_lr _ _ _ _ _ _ Hbounds Hrowj Hj) as Hbj.
  simpl in Hbi, Hbj.
  assert (Hij : i = j) by (apply (Hone i j rowi rowj); auto; lia).
  subst j. rewrite Hi in Hj. injection Hj as <-. reflexivity.
Qed.

Lemma one_growing_row_is_monotone_witness :
  (480 <=? 481)%float = true
  /\ (forall (i j : nat) (rowi rowj : Binary64.RowTextData),
        exJ !! i = Some rowi -> exJ !! j = Some rowj ->
        Binary64.minLines rowi < Binary64.maxNaturalLines rowi ->
        Binary64.minLines rowj < Binary64.maxNaturalLines rowj ->
        i = j)
  /\ exists a1 a2,
       Binary64.calculateOptimalLineDistribution exJ 480 = Ok a1
       /\ Binary64.calculateOptimalLineDistribution exJ 481 = Ok a2
       /\ Forall2 Z.le a1 a2.
Proof.
  assert (Hb : (480 <=? 481)%float = true) by (vm_compute; reflexivity).
  assert (Hone : forall (i j : nat) (rowi rowj : Binary64.RowTextData),
             exJ !! i = Some rowi -> exJ !! j = Some rowj ->
             Binary64.minLines rowi < Binary64.maxNaturalLines rowi ->
             Binary64.minLines rowj < Binary64.maxNaturalLines rowj ->
             i = j).
  { intros [|[|i]] [|[|j]] rowi rowj Hi Hj Hlti Hltj; try reflexivity;
      try discriminate; cbn in Hi, Hj;
      try (injection Hi as <-); try (injection Hj as <-);
      cbn in Hlti, Hltj; lia. }
  split; [exact Hb |]. split; [exact Hone |].
  exact (one_growing_row_is_monotone exJ 480%float 481%float Hb Hone).
Defined.
